(** * A model of the storage layer of the personal finance application

    The module [database.py] wraps one SQLite connection in a class
    [Database] whose methods are single SQL statements over two tables,
    [transactions] and [budgets].  This file embeds that class: the two
    tables are lists of rows in insertion order (which is rowid order, as a
    new identifier exceeds the stored ones), every method is an action of a
    state-and-error monad over the database, and the SQL constructs that
    the statements use (AUTOINCREMENT, INSERT OR REPLACE, DELETE, ORDER BY,
    GROUP BY, SUM, substr) are written out as list functions.

    Modelling conventions:
    - TEXT values are [string]s of the bytes of their UTF-8 encoding,
      compared byte by byte (SQLite's BINARY collation); [substr] counts
      characters, not bytes;
    - INTEGER row identifiers are [Z], bounded above by [MAX_ROWID]; an
      int that a caller hands over may be any [Z] (module [Call]);
    - REAL amounts are exact rationals [Q], which tells what each total is
      the sum of, up to [==]; what rounding does to the totals is told
      apart, in binary64 arithmetic (module [Ieee]). *)

From Stdlib Require Import ZArith QArith Qround String Ascii List Permutation Lia OrdersEx.
From Stdlib Require Import SpecFloat.
From stdpp Require Import base decidable option list sorting strings gmap pretty.

Local Open Scope string_scope.
Local Open Scope list_scope.
Local Open Scope Z_scope.

(** ** Rows and tables *)

(** A row of [transactions(id, date, type, category, description, amount)]. *)
Record Transaction := mkTransaction {
  t_id : Z;
  t_date : string;
  t_type : string;
  t_category : string;
  t_description : string;
  t_amount : Q
}.

(** A row of [budgets(id, category, amount)]. *)
Record Budget := mkBudget {
  b_id : Z;
  b_category : string;
  b_amount : Q
}.

#[global] Instance Q_eq_dec : EqDecision Q.
Proof. solve_decision. Defined.

#[global] Instance Transaction_eq_dec : EqDecision Transaction.
Proof. solve_decision. Defined.

#[global] Instance Budget_eq_dec : EqDecision Budget.
Proof. solve_decision. Defined.

(** The connection's database: both tables, and for each the counter that
    SQLite keeps in [sqlite_sequence] for an AUTOINCREMENT key (0 while the
    table has no entry there). *)
Record Database := mkDatabase {
  transactions : list Transaction;
  budgets : list Budget;
  seq_transactions : Z;
  seq_budgets : Z
}.

(** What [create_tables] leaves in a new file. *)
Definition empty_db : Database := mkDatabase [] [] 0 0.

(** ** Errors and the method monad *)

Inductive sqlite_error := SQLITE_FULL.

Inductive result (A : Type) :=
| Ok (a : A)
| Raise (e : sqlite_error).
Arguments Ok {A} a.
Arguments Raise {A} e.

(** A method of [Database]: it reads and updates the connection's state and
    either returns or raises; a raised error leaves nothing committed. *)
Definition M (A : Type) : Type := Database → result (A * Database).

#[global] Instance M_ret : MRet M := λ A a db, Ok (a, db).

#[global] Instance M_bind : MBind M := λ A B k m db,
  match m db with
  | Ok (a, db') => k a db'
  | Raise e => Raise e
  end.

Definition get : M Database := λ db, Ok (db, db).
Definition put (db' : Database) : M unit := λ _, Ok (tt, db').
Definition lift {A} (r : result A) : M A :=
  λ db, match r with Ok a => Ok (a, db) | Raise e => Raise e end.

(** ** Text order (BINARY collation) *)

Definition str_le (a b : string) : Prop := (a <=? b)%string = true.
Definition str_lt (a b : string) : Prop := (a <? b)%string = true.

#[global] Instance str_le_dec a b : Decision (str_le a b).
Proof. unfold str_le. apply _. Defined.

(** ** AUTOINCREMENT *)

Definition MAX_ROWID : Z := 9223372036854775807.

(** The largest identifier the table holds or has ever handed out. *)
Definition max_rowid (ids : list Z) (seq : Z) : Z := foldr Z.max seq ids.

(** The identifier for a new row: one more than [max_rowid], and
    SQLITE_FULL once the largest identifier has been used. *)
Definition new_rowid (ids : list Z) (seq : Z) : result Z :=
  let m := max_rowid ids seq in
  if m =? MAX_ROWID then Raise SQLITE_FULL else Ok (m + 1).

(** ** Writing methods *)

(** [INSERT INTO transactions (date, type, category, description, amount)
    VALUES (?,?,?,?,?)] *)
Definition add_transaction
    (date type_ category description : string) (amount : Q) : M unit :=
  db ← get;
  i ← lift (new_rowid (t_id <$> transactions db) (seq_transactions db));
  put (mkDatabase
         (transactions db ++ [mkTransaction i date type_ category description amount])
         (budgets db) i (seq_budgets db)).

(** [DELETE FROM transactions WHERE id=?], for an identifier that SQLite
    can hold; [Call.delete_transaction] is the method for any int. *)
Definition delete_transaction (trans_id : Z) : M unit :=
  db ← get;
  put (mkDatabase
         (filter (λ r, t_id r ≠ trans_id) (transactions db))
         (budgets db) (seq_transactions db) (seq_budgets db)).

(** [INSERT OR REPLACE INTO budgets (category, amount) VALUES (?, ?)]:
    the new identifier is drawn first, then every row that clashes on the
    UNIQUE column [category] is deleted, then the new row is stored. *)
Definition add_budget (category : string) (amount : Q) : M unit :=
  db ← get;
  i ← lift (new_rowid (b_id <$> budgets db) (seq_budgets db));
  put (mkDatabase
         (transactions db)
         (filter (λ b, b_category b ≠ category) (budgets db)
            ++ [mkBudget i category amount])
         (seq_transactions db) i).

(** [DELETE FROM budgets WHERE id=?], for an identifier that SQLite can
    hold; [Call.delete_budget] is the method for any int. *)
Definition delete_budget (budget_id : Z) : M unit :=
  db ← get;
  put (mkDatabase
         (transactions db)
         (filter (λ b, b_id b ≠ budget_id) (budgets db))
         (seq_transactions db) (seq_budgets db)).

(** ** ORDER BY *)

(** [ORDER BY date DESC, id DESC]: [r1] may come before [r2]. *)
Definition trans_beforeb (r1 r2 : Transaction) : bool :=
  match (t_date r2 ?= t_date r1)%string with
  | Lt => true
  | Eq => t_id r2 <=? t_id r1
  | Gt => false
  end.

Definition trans_before (r1 r2 : Transaction) : Prop := trans_beforeb r1 r2 = true.

#[global] Instance trans_before_dec r1 r2 : Decision (trans_before r1 r2).
Proof. unfold trans_before. apply _. Defined.

(** [ORDER BY category] *)
Definition budget_before (b1 b2 : Budget) : Prop :=
  str_le (b_category b1) (b_category b2).

#[global] Instance budget_before_dec b1 b2 : Decision (budget_before b1 b2).
Proof. unfold budget_before. apply _. Defined.

(** [ORDER BY SUM(amount) DESC] on rows [(category, SUM(amount))]. *)
Definition total_desc (x y : string * Q) : Prop := Qle_bool (snd y) (snd x) = true.

#[global] Instance total_desc_dec x y : Decision (total_desc x y).
Proof. unfold total_desc. apply _. Defined.

(** [ORDER BY month] on rows [(month, income_total, expense_total)]. *)
Definition month_asc (x y : string * Q * Q) : Prop := str_le (fst (fst x)) (fst (fst y)).

#[global] Instance month_asc_dec x y : Decision (month_asc x y).
Proof. unfold month_asc. apply _. Defined.

(** ** SUM *)

(** The running total of an aggregate, started from 0. *)
Definition sql_total (xs : list Q) : Q := foldl Qplus 0%Q xs.

(** [SUM(x)]: NULL over no rows, the running total otherwise. *)
Definition sql_sum (xs : list Q) : option Q :=
  match xs with
  | [] => None
  | _ => Some (sql_total xs)
  end.

(** Python's [v or 0.0] on a fetched value: NULL arrives as [None], and
    [None] and a zero number are both falsy. *)
Definition or_zero (v : option Q) : Q :=
  match v with
  | None => 0%Q
  | Some x => if Qeq_bool x 0 then 0%Q else x
  end.

(** ** GROUP BY *)

Section group_by.
Context {A : Type} (key : A → string).

Definition key_le (x y : A) : Prop := str_le (key x) (key y).

#[global] Instance key_le_dec x y : Decision (key_le x y).
Proof. unfold key_le. apply _. Defined.

(** One pass over rows sorted on the key: a row joins the group next to
    it when the keys agree, and opens a group of its own otherwise. *)
Fixpoint group_runs (l : list A) : list (string * list A) :=
  match l with
  | [] => []
  | r :: l' =>
      match group_runs l' with
      | (k, g) :: gs =>
          if String.eqb (key r) k then (k, r :: g) :: gs
          else (key r, [r]) :: (k, g) :: gs
      | [] => [(key r, [r])]
      end
  end.

(** The rows are sorted on the grouping key, then cut into groups. *)
Definition group_by (l : list A) : list (string * list A) :=
  group_runs (merge_sort key_le l).

(** What grouping is to achieve: keys strictly ascending, one group for
    each key that occurs, and in each group all the rows of its key. *)
Definition grouped (l : list A) (G : list (string * list A)) : Prop :=
  StronglySorted str_lt (fst <$> G) ∧
  (∀ k, k ∈ fst <$> G ↔ k ∈ key <$> l) ∧
  Forall (λ kg, snd kg = filter (λ x, key x = fst kg) l) G.
End group_by.

(** ** Reading methods *)

(** [SELECT id, date, type, category, description, amount FROM transactions
    ORDER BY date DESC, id DESC] *)
Definition get_transactions : M (list Transaction) :=
  db ← get;
  mret (merge_sort trans_before (transactions db)).

(** [SELECT id, category, amount FROM budgets ORDER BY category] *)
Definition get_budgets : M (list Budget) :=
  db ← get;
  mret (merge_sort budget_before (budgets db)).

(** [WHERE type=?] *)
Definition of_type (ty : string) (r : Transaction) : Prop := t_type r = ty.

#[global] Instance of_type_dec ty r : Decision (of_type ty r).
Proof. unfold of_type. apply _. Defined.

(** Two [SELECT SUM(amount) FROM transactions WHERE type=...] statements,
    each followed by [or 0.0], and the difference of the two totals. *)
Definition get_summary : M (Q * Q * Q) :=
  db ← get;
  let total_income :=
    or_zero (sql_sum (t_amount <$> filter (of_type "Income") (transactions db))) in
  let total_expense :=
    or_zero (sql_sum (t_amount <$> filter (of_type "Expense") (transactions db))) in
  mret (total_income, total_expense, (total_income - total_expense)%Q).

(** [SELECT category, SUM(amount) FROM transactions WHERE type='Expense'
    GROUP BY category ORDER BY SUM(amount) DESC] *)
Definition get_expenses_by_category : M (list (string * Q)) :=
  db ← get;
  let groups := group_by t_category (filter (of_type "Expense") (transactions db)) in
  mret (merge_sort total_desc
         ((λ kg, (fst kg, sql_total (t_amount <$> snd kg))) <$> groups)).

(** A byte that continues a UTF-8 character: 0x80 to 0xBF. *)
Definition utf8_continuation (c : ascii) : bool :=
  let n := N_of_ascii c in ((128 <=? n) && (n <? 192))%N.

(** A byte that opens a UTF-8 character of several bytes: 0xC0 and above. *)
Definition utf8_lead (c : ascii) : bool := (192 <=? N_of_ascii c)%N.

(** [substr(X, 1, n)] of a text.  SQLite walks the bytes of [X] from its
    start, a character at a time: one byte and, behind a byte of 0xC0 or
    more, the continuation bytes that follow; it stops after [n]
    characters, or at the first NUL byte.  [inside] tells that the bytes
    just passed are of a character of several bytes. *)
Fixpoint substr_start (n : nat) (inside : bool) (s : string) : string :=
  match s with
  | EmptyString => EmptyString
  | String c s' =>
      if inside && utf8_continuation c then String c (substr_start n true s')
      else if Ascii.eqb c "000" then EmptyString
      else match n with
           | O => EmptyString
           | S n' => String c (substr_start n' (utf8_lead c) s')
           end
  end.

(** [substr(date, 1, 7)] *)
Definition month_of (date : string) : string := substr_start 7 false date.

(** [CASE WHEN type=ty THEN amount ELSE 0 END] *)
Definition case_amount (ty : string) (r : Transaction) : Q :=
  if String.eqb (t_type r) ty then t_amount r else 0%Q.

(** [SELECT substr(date, 1, 7) AS month, SUM(CASE ...) AS income_total,
    SUM(CASE ...) AS expense_total FROM transactions GROUP BY month
    ORDER BY month] *)
Definition get_monthly_summary : M (list (string * Q * Q)) :=
  db ← get;
  let groups := group_by (λ r, month_of (t_date r)) (transactions db) in
  mret (merge_sort month_asc
         ((λ kg, (fst kg,
                     sql_total (case_amount "Income" <$> snd kg),
                     sql_total (case_amount "Expense" <$> snd kg)))
            <$> groups)).

(** ** Running methods *)

(** The state a method leaves, the state it started in when it raised. *)
Definition exec {A} (m : M A) (db : Database) : Database :=
  match m db with
  | Ok (_, db') => db'
  | Raise _ => db
  end.

(** The value a method returns. *)
Definition eval {A} (m : M A) (db : Database) : result A :=
  match m db with
  | Ok (a, _) => Ok a
  | Raise e => Raise e
  end.

(** The calls that change the store; the reading methods leave it as it is. *)
Inductive call :=
| AddTransaction (date type_ category description : string) (amount : Q)
| DeleteTransaction (trans_id : Z)
| AddBudget (category : string) (amount : Q)
| DeleteBudget (budget_id : Z).

Definition run_call (c : call) : M unit :=
  match c with
  | AddTransaction d ty cat de a => add_transaction d ty cat de a
  | DeleteTransaction i => delete_transaction i
  | AddBudget cat a => add_budget cat a
  | DeleteBudget i => delete_budget i
  end.

Definition run_calls (cs : list call) (db : Database) : Database :=
  foldl (λ d c, exec (run_call c) d) db cs.

(** The stores the public methods can produce from a new file. *)
Definition reachable (db : Database) : Prop := ∃ cs, db = run_calls cs empty_db.

(** The constraints of the schema: both primary keys and the UNIQUE
    category of [budgets]. *)
Record wf (db : Database) : Prop := mk_wf {
  wf_trans_ids : NoDup (t_id <$> transactions db);
  wf_budget_ids : NoDup (b_id <$> budgets db);
  wf_budget_cats : NoDup (b_category <$> budgets db)
}.

(** A run of [add_budget] calls; a call that raises changes nothing. *)
Definition add_budgets (calls : list (string * Q)) (db : Database) : Database :=
  foldl (λ d ca, exec (add_budget (fst ca) (snd ca)) d) db calls.

(** ** The notions the properties are stated with *)

(** Later date first; on the same date, larger identifier first. *)
Definition date_desc_id_desc (r1 r2 : Transaction) : Prop :=
  str_lt (t_date r2) (t_date r1) ∨ (t_date r1 = t_date r2 ∧ t_id r2 ≤ t_id r1).

(** The sum of a list of amounts. *)
Definition Qsum (xs : list Q) : Q := foldr Qplus 0%Q xs.

(** The amounts of the stored transactions of one type. *)
Definition amounts_of (ty : string) (db : Database) : list Q :=
  t_amount <$> filter (of_type ty) (transactions db).








(** A call whose amount, if it stores a transaction, is positive. *)
Definition positive_amount (c : call) : Prop :=
  match c with
  | AddTransaction _ _ _ _ a => (0 < a)%Q
  | _ => True
  end.

(** Every stored amount is positive. *)
Definition amounts_positive (db : Database) : Prop :=
  Forall (λ r, (0 < t_amount r)%Q) (transactions db).

(** A store with two transactions and two budgets, for the examples. *)
Definition sample_db : Database :=
  mkDatabase
    [mkTransaction 1 "2024-03-01" "Income" "Salary" "" 2000;
     mkTransaction 2 "2024-03-05" "Expense" "Groceries" "" 150.50]
    [mkBudget 1 "Food" 100; mkBudget 2 "Rent" 700]
    2 2.

(** ** The remaining reading method *)

Section get_all_categories.
(** [str.lower], the sort key, is Python's own: it is taken as given. *)
Context (lower : string → string).

(** Two [SELECT DISTINCT category] statements, each fetched into a set;
    the union of the sets, without the falsy (empty) names; and
    [sorted(categories, key=lambda s: s.lower())]. *)
Definition get_all_categories : M (list string) :=
  db ← get;
  let trans_cats : gset string :=
    list_to_set (remove_dups (t_category <$> transactions db)) in
  let budget_cats : gset string :=
    list_to_set (remove_dups (b_category <$> budgets db)) in
  let categories : gset string :=
    filter (λ c, c ≠ "") (trans_cats ∪ budget_cats) in
  mret (merge_sort (key_le lower) (elements categories)).
End get_all_categories.

(** A stand-in for [str.lower] on ASCII letters, to run the examples. *)
Fixpoint ascii_lower (s : string) : string :=
  match s with
  | EmptyString => EmptyString
  | String c s' =>
      let n := N_of_ascii c in
      String (if ((65 <=? n) && (n <=? 90))%N then ascii_of_N (n + 32) else c)
             (ascii_lower s')
  end.

(** ** More notions for the properties *)

(** No stored identifier is ahead of its table's AUTOINCREMENT counter. *)
Definition seq_bounds (db : Database) : Prop :=
  Forall (λ r, t_id r ≤ seq_transactions db) (transactions db) ∧
  Forall (λ b, b_id b ≤ seq_budgets db) (budgets db).

(** The calls on the table of transactions. *)
Definition transaction_call (c : call) : Prop :=
  match c with
  | AddTransaction _ _ _ _ _ | DeleteTransaction _ => True
  | AddBudget _ _ | DeleteBudget _ => False
  end.

#[global] Instance transaction_call_dec c : Decision (transaction_call c).
Proof. destruct c; simpl; apply _. Defined.


(** * The delete methods as Python calls them

    The identifier handed to a delete method is a Python int, of any
    size.  The sqlite3 module binds an int as a signed 64-bit INTEGER; for
    one that does not fit, binding raises OverflowError, and the statement
    does not run.  For an identifier that fits, the call is the statement
    of the method above. *)

Module Call.

Inductive exception :=
| OverflowError
| SqliteError (e : sqlite_error).

(** How a call ends, and the store that it leaves. *)
Inductive outcome :=
| Returned (db : Database)
| Raised (e : exception) (db : Database).

(** The ints that fit an INTEGER. *)
Definition int64 (i : Z) : Prop := - 2 ^ 63 ≤ i < 2 ^ 63.

#[global] Instance int64_dec i : Decision (int64 i).
Proof. unfold int64. apply _. Defined.

(** [cursor.execute(sql, (i,))], then [self.conn.commit()]. *)
Definition execute (statement : Z → M unit) (i : Z) (db : Database) : outcome :=
  if decide (int64 i) then
    match statement i db with
    | Ok (_, db') => Returned db'
    | Raise e => Raised (SqliteError e) db
    end
  else Raised OverflowError db.

Definition delete_transaction (trans_id : Z) : Database → outcome :=
  execute delete_transaction trans_id.

Definition delete_budget (budget_id : Z) : Database → outcome :=
  execute delete_budget budget_id.

End Call.

(** * The totals in IEEE arithmetic

    A stored amount is a REAL, an IEEE 754 binary64 number, and SUM adds
    the rows of its group to a running total one after the other, each
    addition rounded to the nearest binary64 number.  This module has the
    two methods that total the Expense rows in that arithmetic; its table
    is the list of the rows of [transactions]. *)

Module Ieee.

Definition float : Type := spec_float.

Definition zero : float := S754_zero false.
Definition add : float → float → float := SFadd 53 1024.
Definition sub : float → float → float := SFsub 53 1024.

(** The binary64 number nearest to an integer. *)
Definition of_Z (z : Z) : float := binary_normalize 53 1024 z 0 false.

(** The rational that a finite binary64 number stands for. *)
Definition exact (x : float) : Q :=
  match x with
  | S754_finite s m e =>
      (inject_Z (if s then Z.neg m else Z.pos m) * (2 # 1) ^ e)%Q
  | _ => 0%Q
  end.

Record Transaction := mkTransaction {
  t_id : Z;
  t_date : string;
  t_type : string;
  t_category : string;
  t_description : string;
  t_amount : float
}.

(** [WHERE type=?] *)
Definition of_type (ty : string) (r : Transaction) : Prop := t_type r = ty.

#[global] Instance of_type_dec ty r : Decision (of_type ty r).
Proof. unfold of_type. apply _. Defined.

(** The running total of an aggregate, started from 0.0. *)
Definition sql_total (xs : list float) : float := foldl add zero xs.

(** [SUM(x)]: NULL over no rows; a total that is not a number is handed
    over as NULL. *)
Definition sql_sum (xs : list float) : option float :=
  match xs with
  | [] => None
  | _ => match sql_total xs with
         | S754_nan => None
         | t => Some t
         end
  end.

(** Python's [v or 0.0]: [None], 0.0 and -0.0 are falsy. *)
Definition or_zero (v : option float) : float :=
  match v with
  | None => zero
  | Some x => if SFeqb x zero then zero else x
  end.

Definition get_summary (table : list Transaction) : float * float * float :=
  let total_income :=
    or_zero (sql_sum (t_amount <$> filter (of_type "Income") table)) in
  let total_expense :=
    or_zero (sql_sum (t_amount <$> filter (of_type "Expense") table)) in
  (total_income, total_expense, sub total_income total_expense).

(** [ORDER BY SUM(amount) DESC]: NULL sorts below every number. *)
Definition total_desc (x y : string * option float) : Prop :=
  match snd y, snd x with
  | None, _ => True
  | Some _, None => False
  | Some b, Some a => SFleb b a = true
  end.

#[global] Instance total_desc_dec x y : Decision (total_desc x y).
Proof. unfold total_desc. destruct (snd y), (snd x); apply _. Defined.

Definition get_expenses_by_category
    (table : list Transaction) : list (string * option float) :=
  let groups := group_by t_category (filter (of_type "Expense") table) in
  merge_sort total_desc ((λ kg, (fst kg, sql_sum (t_amount <$> snd kg))) <$> groups).

(** Three Expense rows, as three calls of [add_transaction] store them. *)
Definition rounded_table : list Transaction :=
  [mkTransaction 1 "2024-01-01" "Expense" "B" "" (of_Z 1);
   mkTransaction 2 "2024-01-02" "Expense" "A" "" (of_Z 1);
   mkTransaction 3 "2024-01-03" "Expense" "A" "" (of_Z 10000000000000000)].

End Ieee.

(** * The presentation layer

    The class [FinanceApp] of [app.py] holds the [Database], the entry
    widgets of the two forms, the two tree views and the three summary
    variables; its methods are the handlers of the buttons.  A tree view is
    the list of the value tuples inserted into it, an entry its text, and
    the message boxes a handler opens are appended to [shown].  Charts are
    drawn by matplotlib and are not modelled. *)

Module App.

(** An exception that a handler can meet: one of the store, or Tk's for an
    item that the tree does not hold. *)
Inductive exception :=
| SqliteError (e : sqlite_error)
| TclError.

(** What the handlers call of Python's library, taken as given. *)
Record Python := mkPython {
  py_strip : string → string;          (* [s.strip()] *)
  py_strptime_ok : string → bool;      (* [datetime.strptime(s, "%Y-%m-%d")] returns *)
  py_float : string → option Q;        (* [float(s)]; [None] for ValueError *)
  py_format2 : Q → string;             (* [f"{x:.2f}"] *)
  py_str : exception → string          (* [f"{exc}"] *)
}.

(** A call of [messagebox]. *)
Inductive box :=
| showerror (title message : string)
| showwarning (title message : string)
| showinfo (title message : string).

(** The value tuples of the rows of the two tree views. *)
Definition trans_values : Type := Z * string * string * string * string * string.
Definition budget_values : Type := Z * string * string.

Record FinanceApp := mkFinanceApp {
  db : Database;
  entry_date : string;
  combo_type : string;
  entry_category : string;
  entry_description : string;
  entry_amount : string;
  tree_transactions : list trans_values;
  entry_budget_category : string;
  entry_budget_amount : string;
  tree_budgets : list budget_values;
  var_total_income : string;
  var_total_expenses : string;
  var_net_balance : string;
  shown : list box
}.

Definition set_db (v : Database) (app : FinanceApp) : FinanceApp :=
  mkFinanceApp v (entry_date app) (combo_type app) (entry_category app) (entry_description app) (entry_amount app) (tree_transactions app) (entry_budget_category app) (entry_budget_amount app) (tree_budgets app) (var_total_income app) (var_total_expenses app) (var_net_balance app) (shown app).

Definition set_entry_date (v : string) (app : FinanceApp) : FinanceApp :=
  mkFinanceApp (db app) v (combo_type app) (entry_category app) (entry_description app) (entry_amount app) (tree_transactions app) (entry_budget_category app) (entry_budget_amount app) (tree_budgets app) (var_total_income app) (var_total_expenses app) (var_net_balance app) (shown app).

Definition set_combo_type (v : string) (app : FinanceApp) : FinanceApp :=
  mkFinanceApp (db app) (entry_date app) v (entry_category app) (entry_description app) (entry_amount app) (tree_transactions app) (entry_budget_category app) (entry_budget_amount app) (tree_budgets app) (var_total_income app) (var_total_expenses app) (var_net_balance app) (shown app).

Definition set_entry_category (v : string) (app : FinanceApp) : FinanceApp :=
  mkFinanceApp (db app) (entry_date app) (combo_type app) v (entry_description app) (entry_amount app) (tree_transactions app) (entry_budget_category app) (entry_budget_amount app) (tree_budgets app) (var_total_income app) (var_total_expenses app) (var_net_balance app) (shown app).

Definition set_entry_description (v : string) (app : FinanceApp) : FinanceApp :=
  mkFinanceApp (db app) (entry_date app) (combo_type app) (entry_category app) v (entry_amount app) (tree_transactions app) (entry_budget_category app) (entry_budget_amount app) (tree_budgets app) (var_total_income app) (var_total_expenses app) (var_net_balance app) (shown app).

Definition set_entry_amount (v : string) (app : FinanceApp) : FinanceApp :=
  mkFinanceApp (db app) (entry_date app) (combo_type app) (entry_category app) (entry_description app) v (tree_transactions app) (entry_budget_category app) (entry_budget_amount app) (tree_budgets app) (var_total_income app) (var_total_expenses app) (var_net_balance app) (shown app).

Definition set_tree_transactions (v : list trans_values) (app : FinanceApp) : FinanceApp :=
  mkFinanceApp (db app) (entry_date app) (combo_type app) (entry_category app) (entry_description app) (entry_amount app) v (entry_budget_category app) (entry_budget_amount app) (tree_budgets app) (var_total_income app) (var_total_expenses app) (var_net_balance app) (shown app).

Definition set_entry_budget_category (v : string) (app : FinanceApp) : FinanceApp :=
  mkFinanceApp (db app) (entry_date app) (combo_type app) (entry_category app) (entry_description app) (entry_amount app) (tree_transactions app) v (entry_budget_amount app) (tree_budgets app) (var_total_income app) (var_total_expenses app) (var_net_balance app) (shown app).

Definition set_entry_budget_amount (v : string) (app : FinanceApp) : FinanceApp :=
  mkFinanceApp (db app) (entry_date app) (combo_type app) (entry_category app) (entry_description app) (entry_amount app) (tree_transactions app) (entry_budget_category app) v (tree_budgets app) (var_total_income app) (var_total_expenses app) (var_net_balance app) (shown app).

Definition set_tree_budgets (v : list budget_values) (app : FinanceApp) : FinanceApp :=
  mkFinanceApp (db app) (entry_date app) (combo_type app) (entry_category app) (entry_description app) (entry_amount app) (tree_transactions app) (entry_budget_category app) (entry_budget_amount app) v (var_total_income app) (var_total_expenses app) (var_net_balance app) (shown app).

Definition set_var_total_income (v : string) (app : FinanceApp) : FinanceApp :=
  mkFinanceApp (db app) (entry_date app) (combo_type app) (entry_category app) (entry_description app) (entry_amount app) (tree_transactions app) (entry_budget_category app) (entry_budget_amount app) (tree_budgets app) v (var_total_expenses app) (var_net_balance app) (shown app).

Definition set_var_total_expenses (v : string) (app : FinanceApp) : FinanceApp :=
  mkFinanceApp (db app) (entry_date app) (combo_type app) (entry_category app) (entry_description app) (entry_amount app) (tree_transactions app) (entry_budget_category app) (entry_budget_amount app) (tree_budgets app) (var_total_income app) v (var_net_balance app) (shown app).

Definition set_var_net_balance (v : string) (app : FinanceApp) : FinanceApp :=
  mkFinanceApp (db app) (entry_date app) (combo_type app) (entry_category app) (entry_description app) (entry_amount app) (tree_transactions app) (entry_budget_category app) (entry_budget_amount app) (tree_budgets app) (var_total_income app) (var_total_expenses app) v (shown app).

Definition set_shown (v : list box) (app : FinanceApp) : FinanceApp :=
  mkFinanceApp (db app) (entry_date app) (combo_type app) (entry_category app) (entry_description app) (entry_amount app) (tree_transactions app) (entry_budget_category app) (entry_budget_amount app) (tree_budgets app) (var_total_income app) (var_total_expenses app) (var_net_balance app) v.

(** A method of [FinanceApp] returns or raises, and in both cases leaves
    the application in some state. *)
Inductive outcome (X : Type) :=
| Returned (x : X) (app : FinanceApp)
| Uncaught (e : exception) (app : FinanceApp).
Arguments Returned {X} x app.
Arguments Uncaught {X} e app.

Definition H (X : Type) : Type := FinanceApp → outcome X.

#[global] Instance H_ret : MRet H := λ X x app, Returned x app.

#[global] Instance H_bind : MBind H := λ X Y k m app,
  match m app with
  | Returned x app' => k x app'
  | Uncaught e app' => Uncaught e app'
  end.

Definition self : H FinanceApp := λ app, Returned app app.
Definition update (f : FinanceApp → FinanceApp) : H unit := λ app, Returned tt (f app).

(** [self.db.method(...)] *)
Definition call_db {X} (m : M X) : H X :=
  λ app, match m (db app) with
         | Ok (x, d) => Returned x (set_db d app)
         | Raise e => Uncaught (SqliteError e) app
         end.

(** [try: body / except Exception as exc: ...], the handler's part left to
    the caller: the body's value, or the exception caught. *)
Definition try_ {X} (body : H X) : H (X + exception) :=
  λ app, match body app with
         | Returned x app' => Returned (inl x) app'
         | Uncaught e app' => Returned (inr e) app'
         end.

(** [for x in l: body(x)] *)
Definition for_each {X} (l : list X) (body : X → H unit) : H unit :=
  foldr (λ x k, body x ;; k) (mret tt) l.

Definition messagebox (b : box) : H unit :=
  update (λ app, set_shown (shown app ++ [b]) app).

Section handlers.
Context (py : Python).

(** The tuple [(row[0], row[1], row[2], row[3], row[4], f"{row[5]:.2f}")]. *)
Definition transaction_values (r : Transaction) : trans_values :=
  (t_id r, t_date r, t_type r, t_category r, t_description r,
   py_format2 py (t_amount r)).

(** The tuple [(row[0], row[1], f"{row[2]:.2f}")]. *)
Definition budget_row_values (b : Budget) : budget_values :=
  (b_id b, b_category b, py_format2 py (b_amount b)).

Definition refresh_transactions : H unit :=
  update (set_tree_transactions []) ;;
  rows ← call_db get_transactions;
  for_each rows (λ row,
    update (λ app, set_tree_transactions
                     (tree_transactions app ++ [transaction_values row]) app)).

Definition refresh_budgets : H unit :=
  update (set_tree_budgets []) ;;
  rows ← call_db get_budgets;
  for_each rows (λ row,
    update (λ app, set_tree_budgets
                     (tree_budgets app ++ [budget_row_values row]) app)).

Definition refresh_summary : H unit :=
  s ← call_db get_summary;
  update (set_var_total_income (py_format2 py (fst (fst s)))) ;;
  update (set_var_total_expenses (py_format2 py (snd (fst s)))) ;;
  update (set_var_net_balance (py_format2 py (snd s))).

Definition add_transaction : H unit :=
  app ← self;
  let date_str := py_strip py (entry_date app) in
  let type_ := combo_type app in
  let category := py_strip py (entry_category app) in
  let description := py_strip py (entry_description app) in
  let amount_str := py_strip py (entry_amount app) in
  if decide (date_str = "") then
    messagebox (showerror "Input Error" "Date is required.")
  else if negb (py_strptime_ok py date_str) then
    messagebox (showerror "Input Error" "Date must be in YYYY-MM-DD format.")
  else if decide (category = "") then
    messagebox (showerror "Input Error" "Category is required.")
  else if decide (amount_str = "") then
    messagebox (showerror "Input Error" "Amount is required.")
  else
    match py_float py amount_str with
    | None => messagebox (showerror "Input Error" "Amount must be a positive number.")
    | Some amount =>
        if Qle_bool amount 0 then
          messagebox (showerror "Input Error" "Amount must be a positive number.")
        else
          r ← try_ (call_db (add_transaction date_str type_ category description amount));
          match r with
          | inr exc =>
              messagebox (showerror "Database Error"
                            ("Failed to add transaction: " +:+ py_str py exc))
          | inl _ =>
              update (set_entry_category "") ;;
              update (set_entry_description "") ;;
              update (set_entry_amount "") ;;
              refresh_transactions ;;
              refresh_summary ;;
              messagebox (showinfo "Success" "Transaction added successfully.")
          end
    end.

(** [selected] is [self.tree_transactions.selection()], an index into the
    tree or nothing (the tree's select mode is "browse"); [answer] is what
    the user answers to [askyesno]. *)
Definition delete_selected_transaction (selected : option nat) (answer : bool) : H unit :=
  match selected with
  | None => messagebox (showwarning "Selection Error"
                          "Please select a transaction to delete.")
  | Some item =>
      app ← self;
      match tree_transactions app !! item with
      | None => λ app, Uncaught TclError app
      | Some values =>
          let trans_id := fst (fst (fst (fst (fst values)))) in
          if answer then
            r ← try_ (call_db (delete_transaction trans_id) ;;
                     refresh_transactions ;;
                     refresh_summary);
            match r with
            | inr exc =>
                messagebox (showerror "Database Error"
                              ("Failed to delete transaction: " +:+ py_str py exc))
            | inl _ => mret tt
            end
          else mret tt
      end
  end.

Definition add_update_budget : H unit :=
  app ← self;
  let category := py_strip py (entry_budget_category app) in
  let amount_str := py_strip py (entry_budget_amount app) in
  if decide (category = "") then
    messagebox (showerror "Input Error" "Category is required.")
  else if decide (amount_str = "") then
    messagebox (showerror "Input Error" "Amount is required.")
  else
    match py_float py amount_str with
    | None => messagebox (showerror "Input Error" "Amount must be a positive number.")
    | Some amount =>
        if Qle_bool amount 0 then
          messagebox (showerror "Input Error" "Amount must be a positive number.")
        else
          r ← try_ (call_db (add_budget category amount));
          match r with
          | inr exc =>
              messagebox (showerror "Database Error"
                            ("Failed to add/update budget: " +:+ py_str py exc))
          | inl _ =>
              update (set_entry_budget_category "") ;;
              update (set_entry_budget_amount "") ;;
              refresh_budgets ;;
              messagebox (showinfo "Success" "Budget added/updated successfully.")
          end
    end.

Definition delete_selected_budget (selected : option nat) (answer : bool) : H unit :=
  match selected with
  | None => messagebox (showwarning "Selection Error"
                          "Please select a budget to delete.")
  | Some item =>
      app ← self;
      match tree_budgets app !! item with
      | None => λ app, Uncaught TclError app
      | Some values =>
          let budget_id := fst (fst values) in
          if answer then
            r ← try_ (call_db (delete_budget budget_id) ;;
                     refresh_budgets);
            match r with
            | inr exc =>
                messagebox (showerror "Database Error"
                              ("Failed to delete budget: " +:+ py_str py exc))
            | inl _ => mret tt
            end
          else mret tt
      end
  end.

(** The application as [__init__] builds it, before it fills the views:
    [today] is [datetime.now().strftime("%Y-%m-%d")] and [file] what
    [Database()] finds in [finance.db]. *)
Definition built (today : string) (file : Database) : FinanceApp :=
  mkFinanceApp file today "Expense" "" "" "" [] "" "" [] "0.00" "0.00" "0.00" [].

(** [__init__] *)
Definition init (today : string) (file : Database) : outcome unit :=
  (refresh_transactions ;; refresh_budgets ;; refresh_summary) (built today file).

(** What the user does.  The type is picked in a read-only combo box that
    offers Income and Expense; the other entries take any text. *)
Inductive event :=
| KeyDate (s : string)
| PickType (income : bool)
| KeyCategory (s : string)
| KeyDescription (s : string)
| KeyAmount (s : string)
| KeyBudgetCategory (s : string)
| KeyBudgetAmount (s : string)
| PressAddTransaction
| PressDeleteTransaction (selected : option nat) (answer : bool)
| PressAddBudget
| PressDeleteBudget (selected : option nat) (answer : bool)
| PressRefresh.

Definition handle (e : event) : H unit :=
  match e with
  | KeyDate s => update (set_entry_date s)
  | PickType income => update (set_combo_type (if income then "Income" else "Expense"))
  | KeyCategory s => update (set_entry_category s)
  | KeyDescription s => update (set_entry_description s)
  | KeyAmount s => update (set_entry_amount s)
  | KeyBudgetCategory s => update (set_entry_budget_category s)
  | KeyBudgetAmount s => update (set_entry_budget_amount s)
  | PressAddTransaction => add_transaction
  | PressDeleteTransaction selected answer => delete_selected_transaction selected answer
  | PressAddBudget => add_update_budget
  | PressDeleteBudget selected answer => delete_selected_budget selected answer
  | PressRefresh => refresh_summary
  end.

(** A handler has opened an error box and done nothing else. *)
Definition only_error (app app' : FinanceApp) : Prop :=
  ∃ title message,
    app' = set_shown (shown app ++ [showerror title message]) app.

(** The state a handler leaves, whether it returned or raised. *)
Definition after {X} (o : outcome X) : FinanceApp :=
  match o with
  | Returned _ app => app
  | Uncaught _ app => app
  end.

Definition run_events (es : list event) (app : FinanceApp) : FinanceApp :=
  foldl (λ a e, after (handle e a)) app es.

(** The tree of transactions shows what [get_transactions] returns. *)
Definition transactions_shown (app : FinanceApp) : Prop :=
  ∃ rows, eval get_transactions (db app) = Ok rows ∧
          tree_transactions app = transaction_values <$> rows.

(** The tree of budgets shows what [get_budgets] returns. *)
Definition budgets_shown (app : FinanceApp) : Prop :=
  ∃ rows, eval get_budgets (db app) = Ok rows ∧
          tree_budgets app = budget_row_values <$> rows.

(** The summary tab shows what [get_summary] returns. *)
Definition summary_shown (app : FinanceApp) : Prop :=
  ∃ s, eval get_summary (db app) = Ok s ∧
       var_total_income app = py_format2 py (fst (fst s)) ∧
       var_total_expenses app = py_format2 py (snd (fst s)) ∧
       var_net_balance app = py_format2 py (snd s).

(** The views show what the store holds. *)
Definition synced (app : FinanceApp) : Prop :=
  transactions_shown app ∧ budgets_shown app ∧ summary_shown app.

(** A call of the store with arguments that the forms let through. *)
Definition validated (c : call) : Prop :=
  match c with
  | AddTransaction d ty cat de a =>
      (0 < a)%Q ∧ cat ≠ "" ∧ d ≠ "" ∧ py_strptime_ok py d = true ∧
      (ty = "Income" ∨ ty = "Expense")
  | AddBudget cat a => (0 < a)%Q ∧ cat ≠ ""
  | DeleteTransaction _ | DeleteBudget _ => True
  end.

(** The combo box shows one of its two values. *)
Definition type_picked (app : FinanceApp) : Prop :=
  combo_type app = "Income" ∨ combo_type app = "Expense".

(** What the forms let into the store. *)
Definition entered (d : Database) : Prop :=
  Forall (λ r, (0 < t_amount r)%Q ∧ t_category r ≠ "" ∧
               t_date r ≠ "" ∧ py_strptime_ok py (t_date r) = true ∧
               (t_type r = "Income" ∨ t_type r = "Expense"))
    (transactions d) ∧
  Forall (λ b, (0 < b_amount b)%Q ∧ b_category b ≠ "") (budgets d).
End handlers.

(** A stand-in for Python's library, to run the examples: spaces are
    stripped at both ends, a date is ten characters with a dash in the
    fifth and eighth place, and a number is a run of digits. *)
Fixpoint lstrip (s : string) : string :=
  match s with
  | String " " s' => lstrip s'
  | _ => s
  end.

Definition sample_strip (s : string) : string :=
  String.rev (lstrip (String.rev (lstrip s))).

Definition sample_strptime_ok (s : string) : bool :=
  (String.length s =? 10)%nat &&
  bool_decide (String.get 4 s = Some "-"%char) &&
  bool_decide (String.get 7 s = Some "-"%char).

Fixpoint digits (s : string) (acc : Z) : option Z :=
  match s with
  | EmptyString => Some acc
  | String c s' =>
      let n := Z.of_N (N_of_ascii c) - 48 in
      if (0 <=? n) && (n <=? 9) then digits s' (10 * acc + n) else None
  end.

Definition sample_float (s : string) : option Q :=
  match s with
  | EmptyString => None
  | _ => inject_Z <$> digits s 0
  end.

(** Two decimals, cut off rather than rounded. *)
Definition sample_format2 (q : Q) : string :=
  let cents := Qfloor (q * 100) in
  pretty (cents / 100) +:+ "." +:+
  pretty (cents mod 100 / 10) +:+ pretty (cents mod 10).

Definition sample_python : Python :=
  mkPython sample_strip sample_strptime_ok sample_float sample_format2
    (λ _, "database or disk is full").

End App.

(** * Properties *)

(** ** The order on text *)

Section text_order.
Lemma compare_as_OT (a b : string) : (a ?= b)%string = String_as_OT.compare a b.
Proof. reflexivity. Qed.

Lemma compare_refl (a : string) : (a ?= a)%string = Eq.
Proof.
  rewrite compare_as_OT.
  destruct (String_as_OT.compare_spec a a) as [_|H|H]; [reflexivity| |];
    now apply StrictOrder_Irreflexive in H.
Qed.

Lemma compare_Eq (a b : string) : (a ?= b)%string = Eq ↔ a = b.
Proof.
  split; [apply String.compare_eq_iff | intros ->; apply compare_refl].
Qed.

Lemma compare_Lt_trans (a b c : string) :
  (a ?= b)%string = Lt → (b ?= c)%string = Lt → (a ?= c)%string = Lt.
Proof.
  rewrite !compare_as_OT. apply (@StrictOrder_Transitive _ _ String_as_OT.lt_strorder).
Qed.

Lemma compare_Gt (a b : string) : (a ?= b)%string = Gt ↔ (b ?= a)%string = Lt.
Proof.
  rewrite (String.compare_antisym b a). destruct (a ?= b)%string; simpl; intuition congruence.
Qed.

Lemma str_lt_irrefl (a : string) : ¬ str_lt a a.
Proof. unfold str_lt, String.ltb. now rewrite compare_refl. Qed.

Lemma str_lt_compare (a b : string) : str_lt a b ↔ (a ?= b)%string = Lt.
Proof. unfold str_lt, String.ltb. destruct (a ?= b)%string; intuition congruence. Qed.

Lemma str_le_lt_eq (a b : string) : str_le a b ↔ str_lt a b ∨ a = b.
Proof.
  rewrite str_lt_compare, <- compare_Eq. unfold str_le, String.leb.
  destruct (a ?= b)%string; intuition congruence.
Qed.

Lemma str_lt_le_ne (a b : string) : str_lt a b ↔ str_le a b ∧ a ≠ b.
Proof.
  rewrite str_le_lt_eq. split.
  - intros H. split; [now left|]. intros ->. now apply str_lt_irrefl in H.
  - intros [[H|H] Hne]; [assumption | contradiction].
Qed.

#[global] Instance str_lt_trans : Transitive str_lt.
Proof. intros a b c. rewrite !str_lt_compare. apply compare_Lt_trans. Qed.

#[global] Instance str_le_refl : Reflexive str_le.
Proof. intros a. apply str_le_lt_eq. now right. Qed.

#[global] Instance str_le_trans : Transitive str_le.
Proof.
  intros a b c. rewrite !str_le_lt_eq. intros [H1| ->] [H2| ->]; auto.
  left. now transitivity b.
Qed.

#[global] Instance str_le_total : Total str_le.
Proof. intros a b. apply String.leb_total. Qed.

#[global] Instance str_le_antisym : AntiSymm (=) str_le.
Proof. intros a b. apply String.leb_antisym. Qed.

Lemma str_lt_not_le (a b : string) : str_lt a b → ¬ str_le b a.
Proof.
  intros H1 H2. apply str_lt_le_ne in H1 as [H1 Hne].
  apply Hne. now apply (anti_symm str_le).
Qed.
End text_order.

(** ** Lists *)

Section list_facts.
Context {A K : Type} `{EqDecision K} (f : A → K).

Lemma filter_all (P : A → Prop) `{∀ x, Decision (P x)} (l : list A) :
  Forall P l → filter P l = l.
Proof.
  induction 1 as [|x l Hx _ IH]; [reflexivity|].
  rewrite filter_cons_True by assumption. now rewrite IH.
Qed.

Lemma filter_key_absent (k : K) (l : list A) :
  k ∉ f <$> l → filter (λ y, f y ≠ k) l = l.
Proof.
  intros Hk. apply filter_all, Forall_forall. intros x Hx Heq.
  apply Hk. rewrite <- Heq. apply list_elem_of_fmap_2, Hx.
Qed.

Lemma filter_key_unique (l1 l2 : list A) (x : A) :
  NoDup (f <$> (l1 ++ x :: l2)) →
  filter (λ y, f y ≠ f x) (l1 ++ x :: l2) = l1 ++ l2.
Proof.
  rewrite fmap_app, fmap_cons. intros Hnd.
  apply NoDup_app in Hnd as (_ & Hl1 & Hnd).
  apply NoDup_cons in Hnd as [Hl2 _].
  rewrite filter_app, filter_cons_False by (intros Hx; now apply Hx).
  rewrite !filter_key_absent; [reflexivity|assumption|].
  intros Hin. apply (Hl1 _ Hin). left.
Qed.

Lemma fmap_filter_elem_of (P : A → Prop) `{∀ x, Decision (P x)} (k : K) (l : list A) :
  k ∈ f <$> filter P l → k ∈ f <$> l.
Proof.
  intros (x & -> & Hx)%list_elem_of_fmap. apply list_elem_of_filter in Hx as [_ Hx].
  now apply list_elem_of_fmap_2.
Qed.

Lemma NoDup_fmap_filter (P : A → Prop) `{∀ x, Decision (P x)} (l : list A) :
  NoDup (f <$> l) → NoDup (f <$> filter P l).
Proof.
  induction l as [|x l IH]; [intros; constructor|].
  rewrite fmap_cons, NoDup_cons. intros [Hx Hl]. rewrite filter_cons.
  destruct (decide (P x)); [|now apply IH].
  rewrite fmap_cons. apply NoDup_cons. split; [|now apply IH].
  intros Hin. now apply Hx, (fmap_filter_elem_of P).
Qed.

Lemma NoDup_fmap_snoc (l : list A) (x : A) :
  NoDup (f <$> l) → f x ∉ f <$> l → NoDup (f <$> (l ++ [x])).
Proof.
  intros Hl Hx. rewrite fmap_app. apply NoDup_app. split; [assumption|].
  split; [|apply NoDup_singleton].
  intros k Hk Hkx. apply list_elem_of_singleton in Hkx. now subst.
Qed.

Lemma NoDup_fmap_eq (l : list A) (x y : A) :
  NoDup (f <$> l) → x ∈ l → y ∈ l → f x = f y → x = y.
Proof.
  induction l as [|z l IH]; [intros _ Hx; now apply elem_of_nil in Hx|].
  rewrite fmap_cons, NoDup_cons. intros [Hz Hl] Hx Hy Hxy.
  apply elem_of_cons in Hx as [->|Hx]; apply elem_of_cons in Hy as [->|Hy].
  - reflexivity.
  - exfalso. apply Hz. rewrite Hxy. now apply list_elem_of_fmap_2.
  - exfalso. apply Hz. rewrite <- Hxy. now apply list_elem_of_fmap_2.
  - now apply IH.
Qed.

Lemma filter_key_none (k : K) (l : list A) :
  filter (λ y, f y = k) (filter (λ y, f y ≠ k) l) = [].
Proof.
  induction l as [|x l IH]; [reflexivity|].
  rewrite (filter_cons (λ y, f y ≠ k)). destruct (decide (f x ≠ k)) as [Hx|Hx]; [|exact IH].
  now rewrite filter_cons_False.
Qed.

Lemma filter_key_other (k : K) (l : list A) :
  filter (λ y, f y ≠ k) (filter (λ y, f y ≠ k) l) = filter (λ y, f y ≠ k) l.
Proof.
  apply filter_all, Forall_forall. intros x Hx.
  now apply list_elem_of_filter in Hx as [Hx _].
Qed.

Lemma filter_key_length (k : K) (l : list A) :
  NoDup (f <$> l) → k ∈ f <$> l →
  length l = S (length (filter (λ y, f y ≠ k) l)).
Proof.
  intros Hnd (x & -> & Hx)%list_elem_of_fmap.
  apply list_elem_of_split in Hx as (l1 & l2 & ->).
  rewrite filter_key_unique by assumption.
  rewrite !length_app. simpl. lia.
Qed.
End list_facts.

Lemma StronglySorted_weaken {A} (R R' : relation A) (l : list A) :
  (∀ x y, R x y → R' x y) → StronglySorted R l → StronglySorted R' l.
Proof.
  intros HR. induction 1 as [|x l _ IH Hx]; constructor; [assumption|].
  eapply Forall_impl; [exact Hx|]. intros y. apply HR.
Qed.

(** ** Fresh identifiers *)

Lemma max_rowid_bound (ids : list Z) (seq : Z) :
  seq ≤ max_rowid ids seq ∧ Forall (λ j, j ≤ max_rowid ids seq) ids.
Proof.
  unfold max_rowid. induction ids as [|j ids [IH1 IH2]]; simpl.
  - split; [lia | constructor].
  - split; [lia|]. constructor; [lia|].
    eapply Forall_impl; [exact IH2|]. simpl. intros; lia.
Qed.

Lemma new_rowid_Ok (ids : list Z) (seq i : Z) :
  new_rowid ids seq = Ok i → seq < i ∧ Forall (λ j, j < i) ids.
Proof.
  unfold new_rowid. destruct (max_rowid_bound ids seq) as [H1 H2].
  destruct (_ =? _); [discriminate|]. intros [= <-]. split; [lia|].
  eapply Forall_impl; [exact H2|]. simpl. intros; lia.
Qed.

Lemma new_rowid_fresh (ids : list Z) (seq i : Z) :
  new_rowid ids seq = Ok i → i ∉ ids.
Proof.
  intros [_ H]%new_rowid_Ok Hin.
  rewrite Forall_forall in H. specialize (H _ Hin). lia.
Qed.

(** ** What the writing methods do to the store *)

Ltac run_method :=
  unfold add_transaction, delete_transaction, add_budget, delete_budget,
    get_transactions, get_budgets, exec, eval, mbind, M_bind, mret, M_ret,
    get, put, lift in *;
  simpl in *.

(** A reading method returns: its bind over [get] reduces to [Ok]. *)
Ltac run_reader :=
  unfold get_summary, get_expenses_by_category, get_monthly_summary,
    get_transactions, get_budgets, mbind, M_bind, get, mret, M_ret;
  lazy beta iota zeta; reflexivity.

Lemma add_transaction_Ok d ty c de a db u db' :
  add_transaction d ty c de a db = Ok (u, db') →
  ∃ i, new_rowid (t_id <$> transactions db) (seq_transactions db) = Ok i ∧
       db' = mkDatabase (transactions db ++ [mkTransaction i d ty c de a])
                        (budgets db) i (seq_budgets db).
Proof.
  run_method. destruct (new_rowid _ _) as [i|e]; [|discriminate].
  intros [= _ <-]. now exists i.
Qed.

Lemma add_budget_Ok c a db u db' :
  add_budget c a db = Ok (u, db') →
  ∃ i, new_rowid (b_id <$> budgets db) (seq_budgets db) = Ok i ∧
       db' = mkDatabase (transactions db)
               (filter (λ b, b_category b ≠ c) (budgets db) ++ [mkBudget i c a])
               (seq_transactions db) i.
Proof.
  run_method. destruct (new_rowid _ _) as [i|e]; [|discriminate].
  intros [= _ <-]. now exists i.
Qed.

(** ** Deleting by identifier *)

Lemma delete_transaction_run (i : Z) (db : Database) :
  delete_transaction i db =
    Ok (tt, mkDatabase (filter (λ r, t_id r ≠ i) (transactions db))
              (budgets db) (seq_transactions db) (seq_budgets db)).
Proof. reflexivity. Qed.

Lemma delete_budget_run (i : Z) (db : Database) :
  delete_budget i db =
    Ok (tt, mkDatabase (transactions db)
              (filter (λ b, b_id b ≠ i) (budgets db))
              (seq_transactions db) (seq_budgets db)).
Proof. reflexivity. Qed.

Lemma execute_run (statement : Z → M unit) (i : Z) (db db' : Database) :
  Call.int64 i → statement i db = Ok (tt, db') →
  Call.execute statement i db = Call.Returned db'.
Proof.
  intros Hi Hrun. unfold Call.execute. rewrite Hrun.
  destruct (decide (Call.int64 i)); [reflexivity | contradiction].
Qed.

Lemma execute_overflow (statement : Z → M unit) (i : Z) (db : Database) :
  ¬ Call.int64 i → Call.execute statement i db = Call.Raised Call.OverflowError db.
Proof.
  intros Hi. unfold Call.execute.
  destruct (decide (Call.int64 i)); [contradiction | reflexivity].
Qed.

(** C8, as the code has it.  Given an identifier that fits a signed 64-bit
    integer, [delete_transaction] and [delete_budget] return normally:
    with an identifier that the table does not hold they leave the whole
    store as it was, and with one that it holds they remove that row from
    its table and keep every other row, in place, in both tables.  Given
    an int that does not fit, both raise OverflowError and leave the store
    as it was. *)
Theorem delete_by_identifier (db : Database) (i : Z) :
  (Call.int64 i →
     (i ∉ t_id <$> transactions db → Call.delete_transaction i db = Call.Returned db) ∧
     (i ∉ b_id <$> budgets db → Call.delete_budget i db = Call.Returned db) ∧
     (wf db → ∀ r, r ∈ transactions db → t_id r = i →
        ∃ l1 l2, transactions db = l1 ++ r :: l2 ∧
          Call.delete_transaction i db =
            Call.Returned (mkDatabase (l1 ++ l2) (budgets db)
                             (seq_transactions db) (seq_budgets db))) ∧
     (wf db → ∀ b, b ∈ budgets db → b_id b = i →
        ∃ l1 l2, budgets db = l1 ++ b :: l2 ∧
          Call.delete_budget i db =
            Call.Returned (mkDatabase (transactions db) (l1 ++ l2)
                             (seq_transactions db) (seq_budgets db)))) ∧
  (¬ Call.int64 i →
     Call.delete_transaction i db = Call.Raised Call.OverflowError db ∧
     Call.delete_budget i db = Call.Raised Call.OverflowError db).
Proof.
  split.
  - intros Hfit. split; [|split; [|split]].
    + intros Hi. apply execute_run; [assumption|].
      rewrite delete_transaction_run, (filter_key_absent t_id) by assumption.
      now destruct db.
    + intros Hi. apply execute_run; [assumption|].
      rewrite delete_budget_run, (filter_key_absent b_id) by assumption.
      now destruct db.
    + intros [Hnd _ _] r Hr Er.
      apply list_elem_of_split in Hr as (l1 & l2 & Hl). exists l1, l2.
      split; [assumption|]. apply execute_run; [assumption|].
      rewrite delete_transaction_run, Hl, <- Er.
      rewrite Hl in Hnd. now rewrite (filter_key_unique t_id).
    + intros [_ Hnd _] b Hb Eb.
      apply list_elem_of_split in Hb as (l1 & l2 & Hl). exists l1, l2.
      split; [assumption|]. apply execute_run; [assumption|].
      rewrite delete_budget_run, Hl, <- Eb.
      rewrite Hl in Hnd. now rewrite (filter_key_unique b_id).
  - intros Hbig. split; now apply execute_overflow.
Qed.

Lemma sample_db_wf : wf sample_db.
Proof. split; compute_done. Qed.

Lemma delete_by_identifier_witness :
  Call.delete_transaction 9999 sample_db = Call.Returned sample_db ∧
  Call.delete_budget 9999 sample_db = Call.Returned sample_db ∧
  (∃ l1 l2, transactions sample_db =
              l1 ++ mkTransaction 2 "2024-03-05" "Expense" "Groceries" "" 150.50 :: l2 ∧
     Call.delete_transaction 2 sample_db
       = Call.Returned (mkDatabase (l1 ++ l2) (budgets sample_db) 2 2)) ∧
  (∃ l1 l2, budgets sample_db = l1 ++ mkBudget 1 "Food" 100 :: l2 ∧
     Call.delete_budget 1 sample_db
       = Call.Returned (mkDatabase (transactions sample_db) (l1 ++ l2) 2 2)) ∧
  Call.delete_transaction (2 ^ 63) sample_db = Call.Raised Call.OverflowError sample_db ∧
  Call.delete_budget (- 2 ^ 63 - 1) sample_db = Call.Raised Call.OverflowError sample_db.
Proof.
  destruct (delete_by_identifier sample_db 9999) as [H9 _].
  destruct (H9 ltac:(unfold Call.int64; lia)) as (H1 & H2 & _).
  destruct (delete_by_identifier sample_db 2) as [Ht _].
  destruct (Ht ltac:(unfold Call.int64; lia)) as (_ & _ & H3 & _).
  destruct (delete_by_identifier sample_db 1) as [Hb _].
  destruct (Hb ltac:(unfold Call.int64; lia)) as (_ & _ & _ & H4).
  destruct (delete_by_identifier sample_db (2 ^ 63)) as [_ Hhi].
  destruct (Hhi ltac:(unfold Call.int64; lia)) as [H5 _].
  destruct (delete_by_identifier sample_db (- 2 ^ 63 - 1)) as [_ Hlo].
  destruct (Hlo ltac:(unfold Call.int64; lia)) as [_ H6].
  split; [apply H1; compute_done|].
  split; [apply H2; compute_done|].
  split; [apply (H3 sample_db_wf); [compute_done | reflexivity]|].
  split; [apply (H4 sample_db_wf); [compute_done | reflexivity]|].
  split; [exact H5 | exact H6].
Defined.

(** C8, as stated, fails: the int 2^63 occurs in no table, yet deleting by
    it raises OverflowError. *)
Lemma delete_out_of_range :
  ¬ (∀ db i, i ∉ t_id <$> transactions db →
             ∃ db', Call.delete_transaction i db = Call.Returned db').
Proof.
  intros H. destruct (H empty_db (2 ^ 63)) as [db' Hdb']; [compute_done|].
  unfold Call.delete_transaction in Hdb'.
  rewrite execute_overflow in Hdb' by (unfold Call.int64; lia). discriminate Hdb'.
Qed.

(** ** The schema constraints hold in every reachable store *)

Lemma empty_db_wf : wf empty_db.
Proof. split; constructor. Qed.

Lemma run_call_wf (c : call) (db : Database) : wf db → wf (exec (run_call c) db).
Proof.
  intros [Ht Hb Hc]. unfold exec.
  destruct (run_call c db) as [[u db']|e] eqn:Hrun; [|now split].
  destruct c as [d ty cat de a|i|cat a|i]; simpl in Hrun.
  - apply add_transaction_Ok in Hrun as (i & Hi & ->).
    split; simpl; [|assumption..].
    apply (NoDup_fmap_snoc t_id); [assumption|]. now apply new_rowid_fresh in Hi.
  - rewrite delete_transaction_run in Hrun. injection Hrun as _ <-.
    split; simpl; [|assumption..]. now apply NoDup_fmap_filter.
  - apply add_budget_Ok in Hrun as (i & Hi & ->).
    split; simpl; [assumption| |].
    + apply (NoDup_fmap_snoc b_id); [now apply NoDup_fmap_filter|].
      intros Hin. apply fmap_filter_elem_of in Hin. now apply new_rowid_fresh in Hi.
    + apply (NoDup_fmap_snoc b_category); [now apply NoDup_fmap_filter|].
      simpl. intros (x & Hx & Hin)%list_elem_of_fmap.
      apply list_elem_of_filter in Hin as [Hne _]. now apply Hne.
  - rewrite delete_budget_run in Hrun. injection Hrun as _ <-.
    split; simpl; [assumption|now apply NoDup_fmap_filter..].
Qed.

Lemma run_calls_wf (cs : list call) (db : Database) : wf db → wf (run_calls cs db).
Proof.
  revert db. induction cs as [|c cs IH]; intros db Hwf; [assumption|].
  simpl. apply IH. now apply run_call_wf.
Qed.

Lemma reachable_wf (db : Database) : reachable db → wf db.
Proof. intros [cs ->]. apply run_calls_wf, empty_db_wf. Qed.

(** ** Insert, then delete *)

(** C7.  When [add_transaction] has stored a row, deleting by the identifier
    that row was given leaves the table of transactions as it was before the
    insertion, and [get_transactions] returns the list it returned before. *)
Theorem add_then_delete_restores (db db' : Database) (d ty c de : string) (a : Q) :
  add_transaction d ty c de a db = Ok (tt, db') →
  ∃ i, transactions db' = transactions db ++ [mkTransaction i d ty c de a] ∧
       (i ∉ t_id <$> transactions db) ∧
       transactions (exec (delete_transaction i) db') = transactions db ∧
       budgets (exec (delete_transaction i) db') = budgets db ∧
       eval (delete_transaction i ;; get_transactions) db' = eval get_transactions db.
Proof.
  intros (i & Hi & ->)%add_transaction_Ok. exists i.
  pose proof (new_rowid_fresh _ _ _ Hi) as Hfresh.
  assert (Hdel : filter (λ r, t_id r ≠ i)
                   (transactions db ++ [mkTransaction i d ty c de a]) = transactions db).
  { rewrite filter_app, (filter_key_absent t_id) by assumption.
    rewrite filter_cons_False by (simpl; intros H; now apply H).
    now rewrite filter_nil, app_nil_r. }
  repeat split; try assumption.
  unfold eval, mbind, M_bind. rewrite delete_transaction_run.
  unfold get_transactions, mbind, M_bind, get, mret, M_ret. cbn [transactions].
  now rewrite Hdel.
Qed.

Lemma add_then_delete_restores_witness :
  ∃ i, transactions (exec (add_transaction "2024-03-09" "Expense" "Rent" "" 700) sample_db)
         = transactions sample_db ++ [mkTransaction i "2024-03-09" "Expense" "Rent" "" 700] ∧
       (i ∉ t_id <$> transactions sample_db) ∧
       transactions (exec (delete_transaction i)
                       (exec (add_transaction "2024-03-09" "Expense" "Rent" "" 700) sample_db))
         = transactions sample_db ∧
       budgets (exec (delete_transaction i)
                       (exec (add_transaction "2024-03-09" "Expense" "Rent" "" 700) sample_db))
         = budgets sample_db ∧
       eval (delete_transaction i ;; get_transactions)
            (exec (add_transaction "2024-03-09" "Expense" "Rent" "" 700) sample_db)
         = eval get_transactions sample_db.
Proof.
  apply (add_then_delete_restores sample_db _ "2024-03-09" "Expense" "Rent" "" 700).
  reflexivity.
Defined.

(** ** Budgets: one row per category *)

Lemma add_budgets_run_calls (calls : list (string * Q)) (db : Database) :
  add_budgets calls db = run_calls ((λ ca, AddBudget (fst ca) (snd ca)) <$> calls) db.
Proof.
  revert db. induction calls as [|ca calls IH]; intros db; [reflexivity|].
  simpl. apply IH.
Qed.

Lemma add_budget_rows (c : string) (a : Q) (db db' : Database) :
  add_budget c a db = Ok (tt, db') →
  ∃ i, Forall (λ b, b_id b < i) (budgets db) ∧
       budgets db' =
         filter (λ b, b_category b ≠ c) (budgets db) ++ [mkBudget i c a].
Proof.
  intros (i & Hi & ->)%add_budget_Ok. exists i. split; [|reflexivity].
  apply new_rowid_Ok in Hi as [_ Hi]. now apply Forall_fmap in Hi.
Qed.

(** C2.  The budgets of a store that meets the schema keep one row per
    category through any run of [add_budget] calls.  A call that returns
    leaves exactly one row for its category, carrying the new amount, and
    leaves the rows of every other category as they were; the number of
    rows is unchanged when the category had a row, and one row is appended
    when it had none.  [add_budget "Food" 100] followed by
    [add_budget "Food" 150] leaves one row for ["Food"], with amount 150. *)
Theorem budget_category_unique :
  (∀ db calls, wf db → NoDup (b_category <$> budgets (add_budgets calls db))) ∧
  (∀ db db' c a, wf db → add_budget c a db = Ok (tt, db') →
     ∃ b, filter (λ x, b_category x = c) (budgets db') = [b] ∧
          b_amount b = a ∧
          filter (λ x, b_category x ≠ c) (budgets db')
            = filter (λ x, b_category x ≠ c) (budgets db) ∧
          (c ∈ b_category <$> budgets db →
             length (budgets db') = length (budgets db)) ∧
          (c ∉ b_category <$> budgets db → budgets db' = budgets db ++ [b])) ∧
  (∀ db db1 db2,
     add_budget "Food" 100 db = Ok (tt, db1) →
     add_budget "Food" 150 db1 = Ok (tt, db2) →
     ∃ b, filter (λ x, b_category x = "Food") (budgets db2) = [b] ∧
          b_amount b = 150%Q).
Proof.
  assert (Hone : ∀ db db' c a, add_budget c a db = Ok (tt, db') →
     ∃ b, filter (λ x, b_category x = c) (budgets db') = [b] ∧ b_amount b = a ∧
          budgets db' = filter (λ x, b_category x ≠ c) (budgets db) ++ [b]).
  { intros db db' c a (i & _ & Hrows)%add_budget_rows.
    exists (mkBudget i c a). rewrite Hrows. split; [|now split].
    rewrite filter_app, (filter_key_none b_category).
    now rewrite filter_cons_True by reflexivity. }
  split; [|split].
  - intros db calls Hwf. rewrite add_budgets_run_calls.
    now apply run_calls_wf.
  - intros db db' c a [_ _ Hnd] Hadd.
    destruct (Hone _ _ _ _ Hadd) as (b & Hb & Ha & Hrows).
    exists b. split; [assumption|]. split; [assumption|].
    assert (Hbc : b_category b = c).
    { assert (Hin : b ∈ filter (λ x, b_category x = c) (budgets db'))
        by (rewrite Hb; left).
      now apply list_elem_of_filter in Hin as [Hin _]. }
    split; [|split].
    + rewrite Hrows, filter_app, (filter_key_other b_category).
      rewrite filter_cons_False by (intros H; now apply H).
      now rewrite filter_nil, app_nil_r.
    + intros Hc. rewrite Hrows, length_app. simpl.
      rewrite (filter_key_length b_category c (budgets db)) by assumption. lia.
    + intros Hc. rewrite Hrows. now rewrite (filter_key_absent b_category).
  - intros db db1 db2 _ Hadd. destruct (Hone _ _ _ _ Hadd) as (b & Hb & Ha & _).
    now exists b.
Qed.

Lemma budget_category_unique_witness :
  NoDup (b_category <$> budgets
           (add_budgets [("Food", 120%Q); ("food", 80%Q); ("Food", 150%Q)] sample_db)) ∧
  (∃ b, filter (λ x, b_category x = "Food")
          (budgets (exec (add_budget "Food" 150) sample_db)) = [b] ∧
        b_amount b = 150%Q ∧
        filter (λ x, b_category x ≠ "Food")
          (budgets (exec (add_budget "Food" 150) sample_db))
          = filter (λ x, b_category x ≠ "Food") (budgets sample_db) ∧
        length (budgets (exec (add_budget "Food" 150) sample_db))
          = length (budgets sample_db)) ∧
  (∃ b, filter (λ x, b_category x = "food")
          (budgets (exec (add_budget "food" 80) sample_db)) = [b] ∧
        b_amount b = 80%Q ∧
        budgets (exec (add_budget "food" 80) sample_db) = budgets sample_db ++ [b]) ∧
  (∃ b, filter (λ x, b_category x = "Food")
          (budgets (exec (add_budget "Food" 150) (exec (add_budget "Food" 100) empty_db)))
          = [b] ∧
        b_amount b = 150%Q).
Proof.
  destruct budget_category_unique as (H1 & H2 & H3).
  split; [apply H1, sample_db_wf|]. split; [|split].
  - destruct (H2 sample_db (exec (add_budget "Food" 150) sample_db) "Food" 150%Q
                sample_db_wf eq_refl) as (b & Hb & Ha & Ho & Hl & _).
    exists b. split; [exact Hb|]. split; [exact Ha|]. split; [exact Ho|].
    apply Hl. compute_done.
  - destruct (H2 sample_db (exec (add_budget "food" 80) sample_db) "food" 80%Q
                sample_db_wf eq_refl) as (b & Hb & Ha & _ & _ & Hn).
    exists b. split; [exact Hb|]. split; [exact Ha|].
    apply Hn. compute_done.
  - apply (H3 empty_db (exec (add_budget "Food" 100) empty_db)); reflexivity.
Defined.

Example get_budgets_after_upsert :
  eval (add_budget "Food" 100 ;; add_budget "Food" 150 ;; get_budgets) empty_db
  = Ok [mkBudget 2 "Food" 150].
Proof. reflexivity. Qed.

(** ** Replacing a budget *)

(** C10.  When [add_budget] returns for the category of a stored budget
    [b], the one row of that category carries the new amount and an
    identifier larger than [b]'s and than that of every row stored before;
    no row carries [b]'s identifier any more,
    and [delete_budget] by it returns and changes nothing. *)
Theorem replaced_budget_identifier (db db' : Database) (b : Budget) (a : Q) :
  wf db → b ∈ budgets db →
  add_budget (b_category b) a db = Ok (tt, db') →
  ∃ b', filter (λ x, b_category x = b_category b) (budgets db') = [b'] ∧
        b_amount b' = a ∧
        b_id b < b_id b' ∧
        Forall (λ x, b_id x < b_id b') (budgets db) ∧
        (b_id b ∉ b_id <$> budgets db') ∧
        delete_budget (b_id b) db' = Ok (tt, db').
Proof.
  intros [_ Hids _] Hb (i & Hlt & Hrows)%add_budget_rows.
  exists (mkBudget i (b_category b) a).
  assert (Hold : b_id b ∉ b_id <$> budgets db').
  { rewrite Hrows, fmap_app. intros [Hin|Hin]%elem_of_app.
    - apply list_elem_of_fmap in Hin as (x & Hx & Hin).
      apply list_elem_of_filter in Hin as [Hne Hin].
      apply Hne. f_equal. symmetry. now apply (NoDup_fmap_eq b_id (budgets db)).
    - apply list_elem_of_singleton in Hin. simpl in Hin.
      rewrite Forall_forall in Hlt. specialize (Hlt _ Hb). simpl in Hlt. lia. }
  split; [|split; [reflexivity|split; [|split; [assumption|split; [assumption|]]]]].
  - rewrite Hrows, filter_app, (filter_key_none b_category).
    now rewrite filter_cons_True by reflexivity.
  - rewrite Forall_forall in Hlt. exact (Hlt _ Hb).
  - rewrite delete_budget_run, (filter_key_absent b_id) by assumption.
    now destruct db'.
Qed.

Lemma replaced_budget_identifier_witness :
  ∃ b', filter (λ x, b_category x = "Food")
          (budgets (exec (add_budget "Food" 150) sample_db)) = [b'] ∧
        b_amount b' = 150%Q ∧
        1 < b_id b' ∧
        Forall (λ x, b_id x < b_id b') (budgets sample_db) ∧
        (1 ∉ b_id <$> budgets (exec (add_budget "Food" 150) sample_db)) ∧
        delete_budget 1 (exec (add_budget "Food" 150) sample_db)
          = Ok (tt, exec (add_budget "Food" 150) sample_db).
Proof.
  apply (replaced_budget_identifier sample_db _ (mkBudget 1 "Food" 100) 150%Q);
    [apply sample_db_wf | compute_done | reflexivity].
Defined.

(** ** Listing transactions *)

Lemma trans_before_spec (r1 r2 : Transaction) :
  trans_before r1 r2 ↔ date_desc_id_desc r1 r2.
Proof.
  unfold trans_before, trans_beforeb, date_desc_id_desc.
  rewrite str_lt_compare, <- (compare_Eq (t_date r1)).
  rewrite (String.compare_antisym (t_date r1) (t_date r2)).
  destruct (t_date r2 ?= t_date r1)%string eqn:E; simpl.
  - rewrite Z.leb_le. intuition congruence.
  - intuition congruence.
  - intuition congruence.
Qed.

#[global] Instance date_desc_id_desc_trans : Transitive date_desc_id_desc.
Proof.
  intros r1 r2 r3 [H12|[E12 H12]] [H23|[E23 H23]].
  - left. now transitivity (t_date r2).
  - left. now rewrite <- E23.
  - left. now rewrite E12.
  - right. split; [congruence | lia].
Qed.

#[global] Instance trans_before_trans : Transitive trans_before.
Proof.
  intros r1 r2 r3. rewrite !trans_before_spec. apply date_desc_id_desc_trans.
Qed.

#[global] Instance trans_before_total : Total trans_before.
Proof.
  intros r1 r2. unfold trans_before, trans_beforeb.
  rewrite (String.compare_antisym (t_date r1) (t_date r2)).
  destruct (t_date r2 ?= t_date r1)%string; simpl; auto.
  rewrite !Z.leb_le. lia.
Qed.

(** C3.  [get_transactions] returns, without raising and without changing
    the store, a list that holds exactly the stored rows, ordered by date
    descending and, on equal dates, by identifier descending; over an empty
    table the list is empty. *)
Theorem get_transactions_ordered (db : Database) :
  ∃ l, get_transactions db = Ok (l, db) ∧
       l ≡ₚ transactions db ∧
       StronglySorted date_desc_id_desc l ∧
       (transactions db = [] → l = []).
Proof.
  exists (merge_sort trans_before (transactions db)).
  split; [reflexivity|]. split; [apply merge_sort_Permutation|]. split.
  - eapply StronglySorted_weaken; [|apply StronglySorted_merge_sort; apply _].
    intros r1 r2. apply trans_before_spec.
  - now intros ->.
Qed.

Lemma get_transactions_ordered_witness :
  ∃ l, get_transactions empty_db = Ok (l, empty_db) ∧
       l ≡ₚ transactions empty_db ∧
       StronglySorted date_desc_id_desc l ∧
       l = [].
Proof.
  destruct (get_transactions_ordered empty_db) as (l & H1 & H2 & H3 & H4).
  exists l. split; [exact H1|]. split; [exact H2|]. split; [exact H3|].
  apply H4. reflexivity.
Defined.

Example get_transactions_sample :
  eval (add_transaction "2024-03-05" "Income" "Gift" "" 20 ;; get_transactions) sample_db
  = Ok [mkTransaction 3 "2024-03-05" "Income" "Gift" "" 20;
        mkTransaction 2 "2024-03-05" "Expense" "Groceries" "" 150.50;
        mkTransaction 1 "2024-03-01" "Income" "Salary" "" 2000].
Proof. reflexivity. Qed.

(** ** Grouping *)

Lemma filter_none {A} (P : A → Prop) `{∀ x, Decision (P x)} (l : list A) :
  Forall (λ x, ¬ P x) l → filter P l = [].
Proof.
  induction 1 as [|x l Hx _ IH]; [reflexivity|].
  now rewrite filter_cons_False.
Qed.

Section group_by_facts.
Context {A : Type} (key : A → string).
Implicit Types (l : list A) (x : A) (G : list (string * list A)).

#[global] Instance key_le_trans : Transitive (key_le key).
Proof. intros x y z. unfold key_le. apply str_le_trans. Qed.

#[global] Instance key_le_total : Total (key_le key).
Proof. intros x y. unfold key_le. apply str_le_total. Qed.


Lemma grouped_cons_other x l G :
  Forall (str_lt (key x)) (fst <$> G) →
  Forall (λ kg, snd kg = filter (λ y, key y = fst kg) l) G →
  Forall (λ kg, snd kg = filter (λ y, key y = fst kg) (x :: l)) G.
Proof.
  intros Hlt HG. rewrite Forall_fmap in Hlt.
  rewrite Forall_forall in Hlt, HG. apply Forall_forall. intros kg Hkg.
  rewrite filter_cons_False; [now apply HG|].
  intros Heq. specialize (Hlt _ Hkg). simpl in Hlt.
  rewrite Heq in Hlt. now apply str_lt_irrefl in Hlt.
Qed.

Lemma group_runs_grouped l :
  StronglySorted (key_le key) l → grouped key l (group_runs key l).
Proof.
  induction 1 as [|x l Hl (Ha & Hc & Hb) Hx].
  { split; [constructor|]. split; [|constructor].
    intros k. simpl. split; intros H; now apply elem_of_nil in H. }
  simpl. destruct (group_runs key l) as [|[k g] gs] eqn:EG.
  - assert (l = []) as ->.
    { destruct l as [|y l]; [reflexivity|]. exfalso.
      apply (elem_of_nil (key y)), Hc. left. }
    split; [repeat constructor|]. split; [reflexivity|].
    constructor; [|constructor]. simpl.
    now rewrite filter_cons_True, filter_nil.
  - assert (Hle : Forall (str_le (key x)) (fst <$> (k, g) :: gs)).
    { apply Forall_forall. intros k' Hk'. apply Hc in Hk'.
      apply list_elem_of_fmap in Hk' as (y & -> & Hy).
      rewrite Forall_forall in Hx. now apply Hx. }
    simpl in Ha, Hle. apply StronglySorted_inv in Ha as [Hgs Hk].
    apply Forall_cons in Hle as [Hxk _].
    apply Forall_cons in Hb as [Hg Hb]. simpl in Hg.
    destruct (String.eqb_spec (key x) k) as [Ek|Nk].
    + split; [now constructor|]. split.
      * intros k'. rewrite (fmap_cons key), (elem_of_cons _ k' (key x)), <- Hc.
        rewrite !fmap_cons, !elem_of_cons. simpl. rewrite Ek. tauto.
      * constructor.
        -- simpl. rewrite filter_cons_True by assumption. now rewrite Hg.
        -- apply grouped_cons_other; [|assumption]. now rewrite Ek.
    + assert (Hlt : Forall (str_lt (key x)) (fst <$> (k, g) :: gs)).
      { assert (Hxk' : str_lt (key x) k) by now apply str_lt_le_ne.
        simpl. constructor; [assumption|].
        eapply Forall_impl; [exact Hk|]. intros k' Hk'. now transitivity k. }
      split; [constructor; [now constructor | assumption]|]. split.
      * intros k'. rewrite (fmap_cons key), (elem_of_cons _ k' (key x)), <- Hc.
        rewrite !fmap_cons, !elem_of_cons. simpl. tauto.
      * constructor.
        -- simpl. rewrite filter_cons_True by reflexivity. f_equal.
           symmetry. apply filter_none, Forall_forall. intros y Hy Ey.
           assert (Hin : key x ∈ fst <$> (k, g) :: gs).
           { apply Hc. rewrite <- Ey. now apply list_elem_of_fmap_2. }
           rewrite Forall_forall in Hlt. now apply Hlt, str_lt_irrefl in Hin.
        -- apply grouped_cons_other; [assumption|]. now constructor.
Qed.

(** [group_by] on any rows: the groups are those of the sorted rows. *)
Lemma group_by_grouped l : grouped key (merge_sort (key_le key) l) (group_by key l).
Proof. apply group_runs_grouped, StronglySorted_merge_sort; apply _. Qed.

Lemma group_by_keys l k : k ∈ fst <$> group_by key l ↔ k ∈ key <$> l.
Proof.
  destruct (group_by_grouped l) as (_ & Hc & _). rewrite Hc.
  now rewrite merge_sort_Permutation.
Qed.

Lemma group_by_keys_sorted l : StronglySorted str_lt (fst <$> group_by key l).
Proof. now destruct (group_by_grouped l) as (Ha & _ & _). Qed.


End group_by_facts.

(** ** Sums of amounts *)



Lemma Qsum_app (xs ys : list Q) : (Qsum (xs ++ ys) == Qsum xs + Qsum ys)%Q.
Proof.
  induction xs as [|x xs IH]; simpl; [ring|]. rewrite IH. ring.
Qed.




(** ** Totals *)



(** The scenario of the specification: a salary of 2000 and groceries for
    150.50, both in March 2024. *)
Example scenario_summary :
  eval (add_transaction "2024-03-01" "Income" "Salary" "" 2000 ;;
        add_transaction "2024-03-05" "Expense" "Groceries" "" 150.50 ;;
        s ← get_summary;
        e ← get_expenses_by_category;
        m ← get_monthly_summary;
        mret (s, e, m)) empty_db
  = Ok ((2000%Q, 150.50%Q, 1849.50%Q),
        [("Groceries", 150.50%Q)],
        [("2024-03", 2000%Q, 150.50%Q)]).
Proof. reflexivity. Qed.

(** ** Stored amounts *)

Lemma run_call_amounts_positive (c : call) (db : Database) :
  positive_amount c → amounts_positive db → amounts_positive (exec (run_call c) db).
Proof.
  unfold amounts_positive, exec. intros Hc Hdb.
  destruct (run_call c db) as [[u db']|e] eqn:Hrun; [|assumption].
  destruct c as [d ty cat de a|i|cat a|i]; simpl in Hrun.
  - apply add_transaction_Ok in Hrun as (i & _ & ->). simpl.
    apply Forall_app. split; [assumption|]. now repeat constructor.
  - rewrite delete_transaction_run in Hrun. injection Hrun as _ <-. simpl.
    apply Forall_forall. intros r [_ Hr]%list_elem_of_filter.
    rewrite Forall_forall in Hdb. now apply Hdb.
  - now apply add_budget_Ok in Hrun as (i & _ & ->).
  - rewrite delete_budget_run in Hrun. now injection Hrun as _ <-.
Qed.

(** C9, as the code has it.  The stored amounts are positive in every store
    reached from the empty one by calls whose [add_transaction] amounts are
    all positive. *)
Theorem stored_amounts_positive (cs : list call) :
  Forall positive_amount cs →
  Forall (λ r, (0 < t_amount r)%Q) (transactions (run_calls cs empty_db)).
Proof.
  intros Hcs. change (amounts_positive (run_calls cs empty_db)).
  assert (H0 : amounts_positive empty_db) by constructor.
  revert H0. generalize empty_db. induction Hcs as [|c cs Hc _ IH]; intros db Hdb.
  - assumption.
  - simpl. apply IH. now apply run_call_amounts_positive.
Qed.

Lemma stored_amounts_positive_witness :
  Forall (λ r, (0 < t_amount r)%Q)
    (transactions
       (run_calls [AddTransaction "2024-03-01" "Income" "Salary" "" 2000;
                   AddBudget "Food" 100;
                   AddTransaction "2024-03-05" "Expense" "Groceries" "" 150.50;
                   DeleteTransaction 1] empty_db)).
Proof.
  apply stored_amounts_positive. repeat constructor.
Defined.

(** C9, as stated, fails: [add_transaction] stores the amount it is given,
    and a store reached with the amount -5 holds a row whose amount is not
    positive. *)
Lemma stored_amount_not_positive :
  ¬ (∀ db, reachable db → ∀ r, r ∈ transactions db → (0 < t_amount r)%Q).
Proof.
  intros H.
  specialize (H (run_calls [AddTransaction "2024-01-01" "Expense" "Food" "" (-5)] empty_db)).
  specialize (H (ex_intro _ _ eq_refl) (mkTransaction 1 "2024-01-01" "Expense" "Food" "" (-5))).
  assert (Hin : mkTransaction 1 "2024-01-01" "Expense" "Food" "" (-5)
                ∈ transactions (run_calls
                    [AddTransaction "2024-01-01" "Expense" "Food" "" (-5)] empty_db))
    by (vm_compute; left).
  specialize (H Hin). simpl in H. discriminate H.
Qed.

(** ** Expenses by category *)

#[global] Instance total_desc_trans : Transitive total_desc.
Proof.
  intros x y z. unfold total_desc. rewrite !Qle_bool_iff.
  intros H1 H2. now apply (Qle_trans _ (snd y)).
Qed.

#[global] Instance total_desc_total : Total total_desc.
Proof.
  intros x y. unfold total_desc. rewrite !Qle_bool_iff.
  destruct (Qlt_le_dec (snd x) (snd y)) as [H|H]; [right|left]; [|assumption].
  now apply Qlt_le_weak.
Qed.








Example rounded_table_totals :
  Ieee.get_expenses_by_category Ieee.rounded_table
    = [("A", Some (Ieee.of_Z 10000000000000000)); ("B", Some (Ieee.of_Z 1))] ∧
  Ieee.get_summary Ieee.rounded_table
    = (Ieee.zero, Ieee.of_Z 10000000000000002, Ieee.of_Z (-10000000000000002)).
Proof. split; vm_compute; reflexivity. Qed.

(** ** Monthly summary *)

#[global] Instance month_asc_trans : Transitive month_asc.
Proof. intros x y z. unfold month_asc. apply str_le_trans. Qed.

#[global] Instance month_asc_total : Total month_asc.
Proof. intros x y. unfold month_asc. apply str_le_total. Qed.

Lemma StronglySorted_str_lt_NoDup (ks : list string) :
  StronglySorted str_lt ks → NoDup ks.
Proof.
  induction 1 as [|k ks _ IH Hk]; constructor; [|assumption].
  intros Hin. rewrite Forall_forall in Hk. now apply Hk, str_lt_irrefl in Hin.
Qed.

Lemma StronglySorted_key_lt {A} (key : A → string) (l : list A) :
  StronglySorted (key_le key) l → NoDup (key <$> l) →
  StronglySorted str_lt (key <$> l).
Proof.
  induction 1 as [|x l _ IH Hx]; [constructor|].
  rewrite fmap_cons, NoDup_cons. intros [Hnin Hnd].
  constructor; [now apply IH|].
  apply Forall_fmap, Forall_forall. intros y Hy. simpl.
  rewrite Forall_forall in Hx. apply str_lt_le_ne. split; [now apply Hx|].
  intros E. apply Hnin. rewrite E. now apply list_elem_of_fmap_2.
Qed.







(** Characters of several bytes count once: these two dates, written with
    full-width digits, lie in different months. *)
Example monthly_summary_wide_digits :
  eval (add_transaction "２０２４-01-15" "Expense" "Food" "" 5 ;;
        add_transaction "２０２４-02-15" "Expense" "Food" "" 7 ;;
        get_monthly_summary) empty_db
  = Ok [("２０２４-01", 0%Q, 5%Q); ("２０２４-02", 0%Q, 7%Q)].
Proof. reflexivity. Qed.

Example monthly_summary_same_bucket :
  eval (add_transaction "2024-01-15" "Income" "Salary" "" 2000 ;;
        add_transaction "2024-02-03" "Expense" "Rent" "" 700 ;;
        add_transaction "2024-01-28" "Expense" "Groceries" "" 150.50 ;;
        add_transaction "2024-01-30" "Transfer" "Savings" "" 40 ;;
        get_monthly_summary) empty_db
  = Ok [("2024-01", 2000%Q, 150.50%Q); ("2024-02", 0%Q, 700%Q)].
Proof. reflexivity. Qed.

(** * Further properties of the storage layer *)

(** ** Listing budgets *)

#[global] Instance budget_before_trans : Transitive budget_before.
Proof. exact (key_le_trans b_category). Qed.

#[global] Instance budget_before_total : Total budget_before.
Proof. exact (key_le_total b_category). Qed.

(** X1.  [get_budgets] returns, without raising and without changing the
    store, exactly the stored budgets in ascending order of category; in a
    store that meets the schema the categories listed ascend strictly, so
    no category is listed twice. *)
Theorem get_budgets_ordered (db : Database) :
  ∃ l, get_budgets db = Ok (l, db) ∧
       l ≡ₚ budgets db ∧
       StronglySorted (λ b1 b2, str_le (b_category b1) (b_category b2)) l ∧
       (wf db → StronglySorted str_lt (b_category <$> l)).
Proof.
  exists (merge_sort budget_before (budgets db)).
  split; [reflexivity|]. split; [apply merge_sort_Permutation|].
  assert (Hs : StronglySorted budget_before (merge_sort budget_before (budgets db)))
    by (apply StronglySorted_merge_sort; apply _).
  split; [exact Hs|]. intros [_ _ Hnd].
  apply (StronglySorted_key_lt b_category); [exact Hs|].
  now rewrite merge_sort_Permutation.
Qed.

Lemma get_budgets_ordered_witness :
  ∃ l, get_budgets sample_db = Ok (l, sample_db) ∧
       l ≡ₚ budgets sample_db ∧
       StronglySorted (λ b1 b2, str_le (b_category b1) (b_category b2)) l ∧
       StronglySorted str_lt (b_category <$> l).
Proof.
  destruct (get_budgets_ordered sample_db) as (l & H1 & H2 & H3 & H4).
  exists l. split; [exact H1|]. split; [exact H2|]. split; [exact H3|].
  apply H4, sample_db_wf.
Defined.

(** ** All categories *)

(** X2.  [get_all_categories] returns, without raising and without
    changing the store, every non-empty category text that a transaction
    or a budget carries, as it is stored (no change of case), once each,
    in ascending order of the lower-cased text. *)
Theorem get_all_categories_listed (lower : string → string) (db : Database) :
  ∃ l, get_all_categories lower db = Ok (l, db) ∧
       NoDup l ∧
       (∀ c, c ∈ l ↔
             c ≠ "" ∧ (c ∈ t_category <$> transactions db ∨
                       c ∈ b_category <$> budgets db)) ∧
       StronglySorted (λ a b, str_le (lower a) (lower b)) l.
Proof.
  eexists. split.
  { unfold get_all_categories, mbind, M_bind, get, mret, M_ret.
    lazy beta iota zeta. reflexivity. }
  split; [|split].
  - rewrite merge_sort_Permutation. apply NoDup_elements.
  - intros c. rewrite merge_sort_Permutation, elem_of_elements, elem_of_filter.
    rewrite elem_of_union, !elem_of_list_to_set, !elem_of_remove_dups.
    reflexivity.
  - apply (StronglySorted_merge_sort (key_le lower)).
Qed.

Example get_all_categories_sample :
  eval (add_transaction "2024-03-01" "Expense" "food" "" 12 ;;
        add_transaction "2024-03-02" "Expense" "Rent" "" 700 ;;
        add_transaction "2024-03-03" "Expense" "" "" 1 ;;
        add_budget "Rent" 800 ;;
        add_budget "Travel" 100 ;;
        get_all_categories ascii_lower) empty_db
  = Ok ["food"; "Rent"; "Travel"].
Proof. vm_compute. reflexivity. Qed.

(** ** Expenses by category, completely *)

(** X3.  [get_expenses_by_category] lists every category that has an
    Expense row, and lists no category twice. *)
Theorem expenses_by_category_complete (db : Database) :
  ∃ l, get_expenses_by_category db = Ok (l, db) ∧
       NoDup (fst <$> l) ∧
       (∀ c, c ∈ fst <$> l ↔
             ∃ r, r ∈ transactions db ∧ t_type r = "Expense" ∧ t_category r = c).
Proof.
  eexists. split; [run_reader|].
  set (rows := filter (of_type "Expense") (transactions db)).
  assert (Hperm : fst <$> merge_sort total_desc
                    ((λ kg, (fst kg, sql_total (t_amount <$> snd kg))) <$>
                       group_by t_category rows)
                  ≡ₚ fst <$> group_by t_category rows).
  { rewrite merge_sort_Permutation, <- list_fmap_compose. reflexivity. }
  split.
  - rewrite Hperm. apply StronglySorted_str_lt_NoDup, group_by_keys_sorted.
  - intros c. rewrite Hperm, group_by_keys, list_elem_of_fmap. unfold rows. split.
    + intros (r & -> & [Ht Hr]%list_elem_of_filter). now exists r.
    + intros (r & Hr & Ht & <-). exists r. split; [reflexivity|].
      now apply list_elem_of_filter.
Qed.

(** ** The listing is settled by the rows *)

(** X5.  In a store that meets the schema no two rows tie in the order of
    [get_transactions], so two stores that hold the same rows list them
    alike, however the rows lie in the table. *)
Theorem get_transactions_determined (db1 db2 : Database) :
  wf db1 → transactions db1 ≡ₚ transactions db2 →
  eval get_transactions db1 = eval get_transactions db2.
Proof.
  intros [Hnd _ _] Hperm.
  change (Ok (merge_sort trans_before (transactions db1))
          = Ok (merge_sort trans_before (transactions db2))).
  f_equal. apply (StronglySorted_unique_strong trans_before).
  - intros r1 r2 H1 H2 H12 H21.
    rewrite merge_sort_Permutation in H1, H2. rewrite <- Hperm in H2.
    apply (NoDup_fmap_eq t_id (transactions db1)); try assumption.
    pose proof (proj1 (trans_before_spec _ _) H12) as [L12|[E12 I12]];
      pose proof (proj1 (trans_before_spec _ _) H21) as [L21|[E21 I21]].
    + exfalso. apply (str_lt_irrefl (t_date r1)). now transitivity (t_date r2).
    + exfalso. rewrite E21 in L12. now apply str_lt_irrefl in L12.
    + exfalso. rewrite E12 in L21. now apply str_lt_irrefl in L21.
    + lia.
  - apply StronglySorted_merge_sort; apply _.
  - apply StronglySorted_merge_sort; apply _.
  - now rewrite !merge_sort_Permutation.
Qed.

Lemma get_transactions_determined_witness :
  eval get_transactions sample_db
  = eval get_transactions
      (mkDatabase (reverse (transactions sample_db)) [] 7 0).
Proof.
  apply get_transactions_determined; [apply sample_db_wf|].
  simpl. apply Permutation_swap.
Defined.

(** ** Identifiers are not handed out twice *)

Lemma run_call_seq_bounds (c : call) (db : Database) :
  seq_bounds db → seq_bounds (exec (run_call c) db).
Proof.
  intros [Ht Hb]. unfold exec.
  destruct (run_call c db) as [[u db']|e] eqn:Hrun; [|now split].
  destruct c as [d ty cat de a|i|cat a|i]; simpl in Hrun.
  - apply add_transaction_Ok in Hrun as (i & [Hi _]%new_rowid_Ok & ->).
    split; simpl; [|assumption]. apply Forall_app. split.
    + eapply Forall_impl; [exact Ht|]. simpl. intros; lia.
    + repeat constructor. simpl. lia.
  - rewrite delete_transaction_run in Hrun. injection Hrun as _ <-.
    split; simpl; [|assumption]. apply Forall_forall.
    intros r [_ Hr]%list_elem_of_filter. rewrite Forall_forall in Ht. now apply Ht.
  - apply add_budget_Ok in Hrun as (i & [Hi _]%new_rowid_Ok & ->).
    split; simpl; [assumption|]. apply Forall_app. split.
    + apply Forall_forall. intros b [_ Hin]%list_elem_of_filter.
      rewrite Forall_forall in Hb. specialize (Hb _ Hin). lia.
    + repeat constructor. simpl. lia.
  - rewrite delete_budget_run in Hrun. injection Hrun as _ <-.
    split; simpl; [assumption|]. apply Forall_forall.
    intros b [_ Hin]%list_elem_of_filter. rewrite Forall_forall in Hb. now apply Hb.
Qed.

Ltac split4 := split; [|split; [|split]].

Lemma run_call_rows (c : call) (db : Database) :
  seq_transactions db ≤ seq_transactions (exec (run_call c) db) ∧
  seq_budgets db ≤ seq_budgets (exec (run_call c) db) ∧
  Forall (λ r, r ∈ transactions db ∨ seq_transactions db < t_id r)
    (transactions (exec (run_call c) db)) ∧
  Forall (λ b, b ∈ budgets db ∨ seq_budgets db < b_id b)
    (budgets (exec (run_call c) db)).
Proof.
  assert (Hsame : ∀ {A} (f : A → Z) (k : Z) (l : list A),
            Forall (λ x, x ∈ l ∨ k < f x) l).
  { intros A f k l. apply Forall_forall. now left. }
  assert (Hsub : ∀ {A} (f : A → Z) (k : Z) (P : A → Prop) `{∀ x, Decision (P x)}
              (l : list A), Forall (λ x, x ∈ l ∨ k < f x) (filter P l)).
  { intros A f k P ? l. apply Forall_forall.
    intros x [_ Hx]%list_elem_of_filter. now left. }
  unfold exec. destruct (run_call c db) as [[u db']|e] eqn:Hrun.
  2:{ split4; try lia; apply Hsame. }
  destruct c as [d ty cat de a|i|cat a|i]; simpl in Hrun.
  - apply add_transaction_Ok in Hrun as (i & [Hi _]%new_rowid_Ok & ->). simpl.
    split4; try lia; [|apply Hsame].
    apply Forall_app. split; [apply Hsame|]. constructor; [now right | constructor].
  - rewrite delete_transaction_run in Hrun. injection Hrun as _ <-. simpl.
    split4; try lia; [apply Hsub | apply Hsame].
  - apply add_budget_Ok in Hrun as (i & [Hi _]%new_rowid_Ok & ->). simpl.
    split4; try lia; [apply Hsame|].
    apply Forall_app. split; [apply Hsub|]. constructor; [now right | constructor].
  - rewrite delete_budget_run in Hrun. injection Hrun as _ <-. simpl.
    split4; try lia; [apply Hsame | apply Hsub].
Qed.

Lemma run_calls_rows (cs : list call) (db : Database) :
  seq_transactions db ≤ seq_transactions (run_calls cs db) ∧
  seq_budgets db ≤ seq_budgets (run_calls cs db) ∧
  Forall (λ r, r ∈ transactions db ∨ seq_transactions db < t_id r)
    (transactions (run_calls cs db)) ∧
  Forall (λ b, b ∈ budgets db ∨ seq_budgets db < b_id b)
    (budgets (run_calls cs db)).
Proof.
  revert db. induction cs as [|c cs IH]; intros db.
  { simpl. split4; try lia; apply Forall_forall; now left. }
  simpl. destruct (IH (exec (run_call c) db)) as (I1 & I2 & I3 & I4).
  destruct (run_call_rows c db) as (S1 & S2 & S3 & S4).
  rewrite Forall_forall in I3. rewrite Forall_forall in I4.
  rewrite Forall_forall in S3. rewrite Forall_forall in S4.
  split4; try lia; apply Forall_forall.
  - intros r Hr. destruct (I3 _ Hr) as [Hin|Hlt]; [now apply S3|]. right. lia.
  - intros b Hb. destruct (I4 _ Hb) as [Hin|Hlt]; [now apply S4|]. right. lia.
Qed.

(** X6.  In a store whose identifiers are not ahead of the AUTOINCREMENT
    counters, whatever calls follow, every row then stored is a row of the
    present store, unchanged, or carries an identifier larger than every
    identifier of the present store; and the counters stay ahead.  So a
    stored row is never modified, and the identifier of a row, also of a
    deleted one, is not given to another row. *)
Theorem identifiers_not_reused (db : Database) (cs : list call) :
  seq_bounds db →
  Forall (λ r, r ∈ transactions db ∨
               Forall (λ r0, t_id r0 < t_id r) (transactions db))
    (transactions (run_calls cs db)) ∧
  Forall (λ b, b ∈ budgets db ∨
               Forall (λ b0, b_id b0 < b_id b) (budgets db))
    (budgets (run_calls cs db)) ∧
  seq_bounds (run_calls cs db).
Proof.
  intros Hsb. destruct (run_calls_rows cs db) as (_ & _ & Ht & Hb).
  destruct Hsb as [Bt Bb]. split; [|split].
  - eapply Forall_impl; [exact Ht|]. intros r [Hin|Hlt]; [now left|right].
    eapply Forall_impl; [exact Bt|]. simpl. intros; lia.
  - eapply Forall_impl; [exact Hb|]. intros b [Hin|Hlt]; [now left|right].
    eapply Forall_impl; [exact Bb|]. simpl. intros; lia.
  - revert db Bt Bb Ht Hb. induction cs as [|c cs IH]; intros db Bt Bb _ _.
    + now split.
    + simpl. destruct (run_call_seq_bounds c db (conj Bt Bb)) as [Bt' Bb'].
      destruct (run_calls_rows cs (exec (run_call c) db)) as (_ & _ & Ht' & Hb').
      now apply IH.
Qed.

Lemma identifiers_not_reused_witness :
  Forall (λ r, r ∈ transactions sample_db ∨
               Forall (λ r0, t_id r0 < t_id r) (transactions sample_db))
    (transactions
       (run_calls [DeleteTransaction 2;
                   AddTransaction "2024-03-09" "Expense" "Rent" "" 700;
                   AddBudget "Food" 150] sample_db)) ∧
  Forall (λ b, b ∈ budgets sample_db ∨
               Forall (λ b0, b_id b0 < b_id b) (budgets sample_db))
    (budgets
       (run_calls [DeleteTransaction 2;
                   AddTransaction "2024-03-09" "Expense" "Rent" "" 700;
                   AddBudget "Food" 150] sample_db)) ∧
  seq_bounds
    (run_calls [DeleteTransaction 2;
                AddTransaction "2024-03-09" "Expense" "Rent" "" 700;
                AddBudget "Food" 150] sample_db).
Proof.
  apply identifiers_not_reused. split; compute_done.
Defined.

Example identifier_after_delete :
  eval (delete_transaction 2 ;;
        add_transaction "2024-03-09" "Expense" "Rent" "" 700 ;;
        get_transactions) sample_db
  = Ok [mkTransaction 3 "2024-03-09" "Expense" "Rent" "" 700;
        mkTransaction 1 "2024-03-01" "Income" "Salary" "" 2000].
Proof. reflexivity. Qed.

(** ** The two tables are independent *)

Lemma run_call_transactions_frame (c : call) (db db' : Database) :
  transactions db = transactions db' →
  seq_transactions db = seq_transactions db' →
  transactions (exec (run_call c) db)
    = transactions (if decide (transaction_call c)
                    then exec (run_call c) db' else db') ∧
  seq_transactions (exec (run_call c) db)
    = seq_transactions (if decide (transaction_call c)
                        then exec (run_call c) db' else db').
Proof.
  intros Et Es.
  destruct c as [d ty cat de a|i|cat a|i]; simpl;
    unfold exec, add_transaction, delete_transaction, add_budget, delete_budget,
      mbind, M_bind, get, put, lift; simpl; rewrite ?Et, ?Es;
    try destruct (new_rowid _ _); simpl; rewrite ?Et, ?Es; now split.
Qed.

Lemma run_call_budgets_frame (c : call) (db db' : Database) :
  budgets db = budgets db' →
  seq_budgets db = seq_budgets db' →
  budgets (exec (run_call c) db)
    = budgets (if decide (¬ transaction_call c)
               then exec (run_call c) db' else db') ∧
  seq_budgets (exec (run_call c) db)
    = seq_budgets (if decide (¬ transaction_call c)
                   then exec (run_call c) db' else db').
Proof.
  intros Eb Es.
  destruct c as [d ty cat de a|i|cat a|i]; simpl;
    unfold exec, add_transaction, delete_transaction, add_budget, delete_budget,
      mbind, M_bind, get, put, lift; simpl; rewrite ?Eb, ?Es;
    try destruct (new_rowid _ _); simpl; rewrite ?Eb, ?Es; now split.
Qed.

Lemma run_calls_transactions_frame (cs : list call) (db db' : Database) :
  transactions db = transactions db' →
  seq_transactions db = seq_transactions db' →
  transactions (run_calls cs db)
    = transactions (run_calls (filter transaction_call cs) db').
Proof.
  revert db db'. induction cs as [|c cs IH]; intros db db' Et Es; [assumption|].
  destruct (run_call_transactions_frame c db db' Et Es) as [Et' Es'].
  rewrite filter_cons. simpl. destruct (decide (transaction_call c)); now apply IH.
Qed.

Lemma run_calls_budgets_frame (cs : list call) (db db' : Database) :
  budgets db = budgets db' →
  seq_budgets db = seq_budgets db' →
  budgets (run_calls cs db)
    = budgets (run_calls (filter (λ c, ¬ transaction_call c) cs) db').
Proof.
  revert db db'. induction cs as [|c cs IH]; intros db db' Eb Es; [assumption|].
  destruct (run_call_budgets_frame c db db' Eb Es) as [Eb' Es'].
  rewrite filter_cons. simpl.
  destruct (decide (¬ transaction_call c)); now apply IH.
Qed.

(** X7.  What the reading methods on transactions return after a run of
    calls is what they return after the run without its budget calls, and
    what [get_budgets] returns is what it returns after the run without
    its transaction calls: neither table's calls touch the other table. *)
Theorem tables_independent (cs : list call) (db : Database) :
  eval get_transactions (run_calls cs db)
    = eval get_transactions (run_calls (filter transaction_call cs) db) ∧
  eval get_summary (run_calls cs db)
    = eval get_summary (run_calls (filter transaction_call cs) db) ∧
  eval get_expenses_by_category (run_calls cs db)
    = eval get_expenses_by_category (run_calls (filter transaction_call cs) db) ∧
  eval get_monthly_summary (run_calls cs db)
    = eval get_monthly_summary (run_calls (filter transaction_call cs) db) ∧
  eval get_budgets (run_calls cs db)
    = eval get_budgets (run_calls (filter (λ c, ¬ transaction_call c) cs) db).
Proof.
  pose proof (run_calls_transactions_frame cs db db eq_refl eq_refl) as Et.
  pose proof (run_calls_budgets_frame cs db db eq_refl eq_refl) as Eb.
  unfold eval, get_transactions, get_summary, get_expenses_by_category,
    get_monthly_summary, get_budgets, mbind, M_bind, get, mret, M_ret.
  lazy beta iota zeta. rewrite Et, Eb. repeat split; reflexivity.
Qed.

(** ** Running [get_summary] *)

Lemma get_summary_run (db : Database) :
  get_summary db =
    Ok ((or_zero (sql_sum (amounts_of "Income" db)),
         or_zero (sql_sum (amounts_of "Expense" db)),
         (or_zero (sql_sum (amounts_of "Income" db))
          - or_zero (sql_sum (amounts_of "Expense" db)))%Q), db).
Proof. reflexivity. Qed.

(** * Properties of the presentation layer *)

Section app_facts.
Context (py : App.Python).
Implicit Types (app : App.FinanceApp).

Ltac run_app :=
  unfold App.messagebox, App.try_, App.call_db, App.update, App.self,
    mbind, App.H_bind, mret, App.H_ret.

Lemma for_each_insert_transactions (rows : list Transaction) app :
  App.for_each rows (λ row,
    App.update (λ a, App.set_tree_transactions
                       (App.tree_transactions a ++ [App.transaction_values py row]) a)) app
  = App.Returned tt
      (App.set_tree_transactions
         (App.tree_transactions app ++ (App.transaction_values py <$> rows)) app).
Proof.
  revert app. induction rows as [|r rows IH]; intros app.
  - simpl. rewrite app_nil_r. now destruct app.
  - simpl. run_app. rewrite IH. f_equal. destruct app; unfold App.set_tree_transactions.
    simpl. now rewrite <- app_assoc.
Qed.

Lemma for_each_insert_budgets (rows : list Budget) app :
  App.for_each rows (λ row,
    App.update (λ a, App.set_tree_budgets
                       (App.tree_budgets a ++ [App.budget_row_values py row]) a)) app
  = App.Returned tt
      (App.set_tree_budgets
         (App.tree_budgets app ++ (App.budget_row_values py <$> rows)) app).
Proof.
  revert app. induction rows as [|r rows IH]; intros app.
  - simpl. rewrite app_nil_r. now destruct app.
  - simpl. run_app. rewrite IH. f_equal. destruct app; unfold App.set_tree_budgets.
    simpl. now rewrite <- app_assoc.
Qed.

Lemma refresh_transactions_run app :
  App.refresh_transactions py app
  = App.Returned tt
      (App.set_tree_transactions
         (App.transaction_values py <$> merge_sort trans_before (transactions (App.db app)))
         app).
Proof.
  unfold App.refresh_transactions. run_app. simpl.
  rewrite for_each_insert_transactions. now destruct app.
Qed.

Lemma refresh_budgets_run app :
  App.refresh_budgets py app
  = App.Returned tt
      (App.set_tree_budgets
         (App.budget_row_values py <$> merge_sort budget_before (budgets (App.db app)))
         app).
Proof.
  unfold App.refresh_budgets. run_app. simpl.
  rewrite for_each_insert_budgets. now destruct app.
Qed.

(** The three totals of [get_summary]. *)
Lemma refresh_summary_run app :
  ∃ s, eval get_summary (App.db app) = Ok s ∧
    App.refresh_summary py app
    = App.Returned tt
        (App.set_var_net_balance (App.py_format2 py (snd s))
           (App.set_var_total_expenses (App.py_format2 py (snd (fst s)))
              (App.set_var_total_income (App.py_format2 py (fst (fst s))) app))).
Proof.
  eexists. split; [reflexivity|].
  unfold App.refresh_summary. run_app. simpl. now destruct app.
Qed.
Lemma Qle_bool_false (a : Q) : Qle_bool a 0 = false → (0 < a)%Q.
Proof.
  intros H. apply Qnot_le_lt. intros Hle. apply Qle_bool_iff in Hle. congruence.
Qed.

Ltac error_box :=
  eexists; split; [reflexivity | left; eexists _, _; reflexivity].

(** X10.  The handler of the Add Transaction button returns; it either
    opens one error box and changes nothing else, or the date is not
    blank and passes [strptime], the category is not blank and the amount
    is a positive number, one row with the stripped texts is stored, the
    category, description and amount entries are cleared, the list and the
    summary are refreshed and a success box is opened. *)
Theorem add_transaction_handler app :
  let date_str := App.py_strip py (App.entry_date app) in
  let category := App.py_strip py (App.entry_category app) in
  let description := App.py_strip py (App.entry_description app) in
  ∃ app', App.add_transaction py app = App.Returned tt app' ∧
    (App.only_error app app' ∨
     ∃ i amount,
       App.py_float py (App.py_strip py (App.entry_amount app)) = Some amount ∧
       (0 < amount)%Q ∧ date_str ≠ "" ∧ App.py_strptime_ok py date_str = true ∧
       category ≠ "" ∧
       add_transaction date_str (App.combo_type app) category description amount
         (App.db app) = Ok (tt, App.db app') ∧
       transactions (App.db app')
         = transactions (App.db app)
             ++ [mkTransaction i date_str (App.combo_type app) category description amount] ∧
       App.entry_date app' = App.entry_date app ∧
       App.combo_type app' = App.combo_type app ∧
       App.entry_category app' = "" ∧
       App.entry_description app' = "" ∧
       App.entry_amount app' = "" ∧
       App.transactions_shown py app' ∧
       App.summary_shown py app' ∧
       App.tree_budgets app' = App.tree_budgets app ∧
       App.shown app'
         = App.shown app ++ [App.showinfo "Success" "Transaction added successfully."]).
Proof.
  intros date_str category description.
  unfold App.add_transaction. run_app. fold date_str category description.
  destruct (decide (date_str = "")) as [|Hd]; [error_box|].
  destruct (App.py_strptime_ok py date_str) eqn:Hp; simpl; [|error_box].
  destruct (decide (category = "")) as [|Hc]; [error_box|].
  destruct (decide (_ = "")) as [|Ha]; [error_box|].
  destruct (App.py_float py _) as [amount|] eqn:Hf; [|error_box].
  destruct (Qle_bool amount 0) eqn:Hq; [error_box|].
  destruct (add_transaction _ _ _ _ _ (App.db app)) as [[[] db']|e] eqn:Hadd;
    [|error_box].
  rewrite refresh_transactions_run.
  eexists. split; [reflexivity|]. right.
  pose proof Hadd as (i & _ & Hdb)%add_transaction_Ok.
  exists i, amount. simpl.
  repeat (split; [first [assumption | reflexivity | now apply Qle_bool_false
                        | now rewrite Hdb | now eexists]|]).
  reflexivity.
Qed.
(** X11.  The handler of the Add/Update Budget button returns; it either
    opens one error box and changes nothing else, or the category is not
    blank and the amount is a positive number, the budget of the stripped
    category is stored in place of any older one, both entries are
    cleared, the list of budgets is refreshed and a success box is
    opened. *)
Theorem add_update_budget_handler app :
  let category := App.py_strip py (App.entry_budget_category app) in
  ∃ app', App.add_update_budget py app = App.Returned tt app' ∧
    (App.only_error app app' ∨
     ∃ i amount,
       App.py_float py (App.py_strip py (App.entry_budget_amount app)) = Some amount ∧
       (0 < amount)%Q ∧ category ≠ "" ∧
       add_budget category amount (App.db app) = Ok (tt, App.db app') ∧
       budgets (App.db app')
         = filter (λ b, b_category b ≠ category) (budgets (App.db app))
             ++ [mkBudget i category amount] ∧
       App.entry_budget_category app' = "" ∧
       App.entry_budget_amount app' = "" ∧
       App.budgets_shown py app' ∧
       App.tree_transactions app' = App.tree_transactions app ∧
       App.var_total_income app' = App.var_total_income app ∧
       App.var_total_expenses app' = App.var_total_expenses app ∧
       App.var_net_balance app' = App.var_net_balance app ∧
       App.combo_type app' = App.combo_type app ∧
       App.shown app'
         = App.shown app ++ [App.showinfo "Success" "Budget added/updated successfully."]).
Proof.
  intros category.
  unfold App.add_update_budget. run_app. fold category.
  destruct (decide (category = "")) as [|Hc]; [error_box|].
  destruct (decide (_ = "")) as [|Ha]; [error_box|].
  destruct (App.py_float py _) as [amount|] eqn:Hf; [|error_box].
  destruct (Qle_bool amount 0) eqn:Hq; [error_box|].
  destruct (add_budget _ _ (App.db app)) as [[[] db']|e] eqn:Hadd; [|error_box].
  rewrite refresh_budgets_run.
  eexists. split; [reflexivity|]. right.
  pose proof Hadd as (i & _ & Hdb)%add_budget_Ok.
  exists i, amount. simpl.
  repeat (split; [first [assumption | reflexivity | now apply Qle_bool_false
                        | now rewrite Hdb | now eexists]|]).
  reflexivity.
Qed.

(** What the handler of a Delete Selected button does, case by case. *)
Lemma delete_selected_transaction_cases (selected : option nat) (answer : bool) app :
  match selected with
  | None =>
      App.delete_selected_transaction py selected answer app
      = App.Returned tt
          (App.set_shown
             (App.shown app ++
                [App.showwarning "Selection Error"
                   "Please select a transaction to delete."]) app)
  | Some item =>
      match App.tree_transactions app !! item with
      | None =>
          App.delete_selected_transaction py selected answer app
          = App.Uncaught App.TclError app
      | Some values =>
          if answer then
            ∃ app',
              App.delete_selected_transaction py selected answer app
              = App.Returned tt app' ∧
              App.db app'
              = exec (delete_transaction (fst (fst (fst (fst (fst values))))))
                  (App.db app) ∧
              App.transactions_shown py app' ∧
              App.summary_shown py app' ∧
              App.tree_budgets app' = App.tree_budgets app ∧
              App.combo_type app' = App.combo_type app ∧
              App.shown app' = App.shown app
          else
            App.delete_selected_transaction py selected answer app
            = App.Returned tt app
      end
  end.
Proof.
  destruct selected as [item|]; [|reflexivity].
  unfold App.delete_selected_transaction. run_app.
  destruct (App.tree_transactions app !! item) as [values|]; [|reflexivity].
  destruct answer; [|reflexivity].
  rewrite delete_transaction_run. rewrite refresh_transactions_run.
  eexists. split; [reflexivity|]. simpl.
  repeat (split; [first [reflexivity | now eexists]|]). reflexivity.
Qed.

Lemma delete_selected_budget_cases (selected : option nat) (answer : bool) app :
  match selected with
  | None =>
      App.delete_selected_budget py selected answer app
      = App.Returned tt
          (App.set_shown
             (App.shown app ++
                [App.showwarning "Selection Error"
                   "Please select a budget to delete."]) app)
  | Some item =>
      match App.tree_budgets app !! item with
      | None =>
          App.delete_selected_budget py selected answer app
          = App.Uncaught App.TclError app
      | Some values =>
          if answer then
            ∃ app',
              App.delete_selected_budget py selected answer app
              = App.Returned tt app' ∧
              App.db app' = exec (delete_budget (fst (fst values))) (App.db app) ∧
              App.budgets_shown py app' ∧
              App.tree_transactions app' = App.tree_transactions app ∧
              App.var_total_income app' = App.var_total_income app ∧
              App.var_total_expenses app' = App.var_total_expenses app ∧
              App.var_net_balance app' = App.var_net_balance app ∧
              App.combo_type app' = App.combo_type app ∧
              App.shown app' = App.shown app
          else
            App.delete_selected_budget py selected answer app
            = App.Returned tt app
      end
  end.
Proof.
  destruct selected as [item|]; [|reflexivity].
  unfold App.delete_selected_budget. run_app.
  destruct (App.tree_budgets app !! item) as [values|]; [|reflexivity].
  destruct answer; [|reflexivity].
  rewrite delete_budget_run. rewrite refresh_budgets_run.
  eexists. split; [reflexivity|]. simpl.
  repeat (split; [first [reflexivity | now eexists]|]). reflexivity.
Qed.
(** ** Every handler is at most one validated call of the store *)

Lemma only_error_fields app app' :
  App.only_error app app' →
  App.db app' = App.db app ∧
  App.combo_type app' = App.combo_type app ∧
  App.tree_transactions app' = App.tree_transactions app ∧
  App.tree_budgets app' = App.tree_budgets app ∧
  App.var_total_income app' = App.var_total_income app ∧
  App.var_total_expenses app' = App.var_total_expenses app ∧
  App.var_net_balance app' = App.var_net_balance app.
Proof. intros (title & message & ->). now repeat split. Qed.

Lemma exec_Ok {X} (m : M X) (d d' : Database) (x : X) :
  m d = Ok (x, d') → exec m d = d'.
Proof. unfold exec. now intros ->. Qed.

Lemma handle_refines (e : App.event) app :
  App.type_picked app →
  ∃ cs, App.db (App.after (App.handle py e app)) = run_calls cs (App.db app) ∧
        Forall (App.validated py) cs ∧
        App.type_picked (App.after (App.handle py e app)).
Proof.
  intros Hty. destruct e as [s|income|s|s|s|s|s| |selected answer| |selected answer| ];
    simpl.
  1,3,4,5,6,7: now exists [].
  - exists []. repeat split; [constructor|]. unfold App.type_picked. simpl.
    destruct income; auto.
  - destruct (add_transaction_handler app) as (app' & -> & [Herr|Hok]); simpl.
    + apply only_error_fields in Herr as (Hdb & Hcombo & _).
      exists []. unfold App.type_picked. rewrite Hdb, Hcombo. now repeat split.
    + destruct Hok as (i & a & _ & Ha & Hd & Hp & Hc & Hadd & _ & _ & Hcombo & _).
      eexists [AddTransaction _ _ _ _ _]. simpl. rewrite (exec_Ok _ _ _ _ Hadd).
      split; [reflexivity|]. split; [|unfold App.type_picked; now rewrite Hcombo].
      constructor; [|constructor]. simpl. now repeat split.
  - pose proof (delete_selected_transaction_cases selected answer app) as H.
    destruct selected as [item|]; [|rewrite H; now exists []].
    destruct (App.tree_transactions app !! item) as [values|];
      [|rewrite H; now exists []].
    destruct answer; [|rewrite H; now exists []].
    destruct H as (app' & -> & Hdb & _ & _ & _ & Hcombo & _). simpl.
    eexists [DeleteTransaction _]. simpl. split; [exact Hdb|].
    split; [now repeat constructor|]. unfold App.type_picked. now rewrite Hcombo.
  - destruct (add_update_budget_handler app) as (app' & -> & [Herr|Hok]); simpl.
    + apply only_error_fields in Herr as (Hdb & Hcombo & _).
      exists []. unfold App.type_picked. rewrite Hdb, Hcombo. now repeat split.
    + destruct Hok as (i & a & _ & Ha & Hc & Hadd & _ & _ & _ & _ & _ & _ & _ & _
                       & Hcombo & _).
      eexists [AddBudget _ _]. simpl. rewrite (exec_Ok _ _ _ _ Hadd).
      split; [reflexivity|]. split; [|unfold App.type_picked; now rewrite Hcombo].
      constructor; [|constructor]. simpl. now split.
  - pose proof (delete_selected_budget_cases selected answer app) as H.
    destruct selected as [item|]; [|rewrite H; now exists []].
    destruct (App.tree_budgets app !! item) as [values|];
      [|rewrite H; now exists []].
    destruct answer; [|rewrite H; now exists []].
    destruct H as (app' & -> & Hdb & _ & _ & _ & _ & _ & Hcombo & _). simpl.
    eexists [DeleteBudget _]. simpl. split; [exact Hdb|].
    split; [now repeat constructor|]. unfold App.type_picked. now rewrite Hcombo.
  - now exists [].
Qed.

Lemma run_calls_app (cs1 cs2 : list call) (d : Database) :
  run_calls (cs1 ++ cs2) d = run_calls cs2 (run_calls cs1 d).
Proof. unfold run_calls. apply foldl_app. Qed.

Lemma run_events_refine (es : list App.event) app :
  App.type_picked app →
  ∃ cs, App.db (App.run_events py es app) = run_calls cs (App.db app) ∧
        Forall (App.validated py) cs.
Proof.
  revert app. induction es as [|e es IH]; intros app Hty.
  - now exists [].
  - destruct (handle_refines e app Hty) as (cs1 & Hdb & Hv1 & Hty').
    destruct (IH _ Hty') as (cs2 & Hdb2 & Hv2).
    exists (cs1 ++ cs2). simpl. rewrite Hdb2, Hdb, run_calls_app.
    split; [reflexivity|]. now apply Forall_app.
Qed.

Lemma init_run (today : string) (file : Database) :
  ∃ app, App.init py today file = App.Returned tt app ∧
         App.db app = file ∧ App.combo_type app = "Expense" ∧
         App.entry_date app = today ∧ App.shown app = [] ∧
         App.synced py app.
Proof.
  unfold App.init. run_app.
  rewrite refresh_transactions_run. rewrite refresh_budgets_run.
  eexists. split; [reflexivity|]. simpl.
  repeat (split; [first [reflexivity | now eexists]|]). now eexists.
Qed.

(** X12.  Whatever the user does after the application has started, the
    store is what a run of storage calls makes of the file the application
    opened, and every call of that run has arguments that passed the
    forms' checks: a positive amount, a category that is not blank and,
    for a transaction, a date that is not blank and passes [strptime] and
    one of the two types of the combo box. *)
Theorem events_are_validated_calls (today : string) (file : Database)
    (es : list App.event) :
  ∃ cs, App.db (App.run_events py es (App.after (App.init py today file)))
          = run_calls cs file ∧
        Forall (App.validated py) cs.
Proof.
  destruct (init_run today file) as (app & -> & Hdb & Hcombo & _). simpl.
  rewrite <- Hdb. apply run_events_refine. now right.
Qed.

(** ** What the forms let into the store *)

Lemma run_call_entered (c : call) (d : Database) :
  App.validated py c → App.entered py d → App.entered py (exec (run_call c) d).
Proof.
  intros Hc [Ht Hb]. unfold exec.
  destruct (run_call c d) as [[u d']|e] eqn:Hrun; [|now split].
  destruct c as [dt ty cat de a|i|cat a|i]; simpl in Hrun, Hc.
  - apply add_transaction_Ok in Hrun as (i & _ & ->). split; [|assumption]. simpl.
    apply Forall_app. split; [assumption|]. constructor; [exact Hc | constructor].
  - rewrite delete_transaction_run in Hrun. injection Hrun as _ <-.
    split; [|assumption]. simpl. apply Forall_forall.
    intros r [_ Hr]%list_elem_of_filter. rewrite Forall_forall in Ht. now apply Ht.
  - apply add_budget_Ok in Hrun as (i & _ & ->). split; [assumption|]. simpl.
    apply Forall_app. split; [|constructor; [exact Hc | constructor]].
    apply Forall_forall. intros b [_ Hin]%list_elem_of_filter.
    rewrite Forall_forall in Hb. now apply Hb.
  - rewrite delete_budget_run in Hrun. injection Hrun as _ <-.
    split; [assumption|]. simpl. apply Forall_forall.
    intros b [_ Hin]%list_elem_of_filter. rewrite Forall_forall in Hb. now apply Hb.
Qed.

(** X13.  When the file the application opens holds only transactions with
    a positive amount, a category and a date that are not blank, a date
    that passes [strptime] and the type Income or Expense, and only
    budgets with a positive amount and a category that is not blank, then
    so does the store after anything the user does; and the store keeps
    meeting the schema. *)
Theorem entered_through_forms (today : string) (file : Database)
    (es : list App.event) :
  App.entered py file → wf file →
  App.entered py (App.db (App.run_events py es (App.after (App.init py today file)))) ∧
  wf (App.db (App.run_events py es (App.after (App.init py today file)))).
Proof.
  intros Hent Hwf.
  destruct (events_are_validated_calls today file es) as (cs & -> & Hcs).
  split; [|now apply run_calls_wf].
  clear Hwf. revert file Hent. induction Hcs as [|c cs Hc _ IH]; intros file Hent.
  - assumption.
  - simpl. apply IH. now apply run_call_entered.
Qed.
(** ** The views follow the store *)

Lemma transactions_shown_ext app app' :
  transactions (App.db app') = transactions (App.db app) →
  App.tree_transactions app' = App.tree_transactions app →
  App.transactions_shown py app → App.transactions_shown py app'.
Proof.
  intros Et Etree (rows & Hrows & Htree). exists rows. split; [|congruence].
  change (Ok (merge_sort trans_before (transactions (App.db app'))) = Ok rows).
  rewrite Et. exact Hrows.
Qed.

Lemma budgets_shown_ext app app' :
  budgets (App.db app') = budgets (App.db app) →
  App.tree_budgets app' = App.tree_budgets app →
  App.budgets_shown py app → App.budgets_shown py app'.
Proof.
  intros Eb Etree (rows & Hrows & Htree). exists rows. split; [|congruence].
  change (Ok (merge_sort budget_before (budgets (App.db app'))) = Ok rows).
  rewrite Eb. exact Hrows.
Qed.

Lemma summary_shown_ext app app' :
  transactions (App.db app') = transactions (App.db app) →
  App.var_total_income app' = App.var_total_income app →
  App.var_total_expenses app' = App.var_total_expenses app →
  App.var_net_balance app' = App.var_net_balance app →
  App.summary_shown py app → App.summary_shown py app'.
Proof.
  intros Et E1 E2 E3 (s & Hs & H1 & H2 & H3). exists s.
  split; [|repeat split; congruence].
  revert Hs. unfold eval. rewrite !get_summary_run. unfold amounts_of.
  now rewrite Et.
Qed.

Lemma handle_synced (e : App.event) app :
  App.synced py app → App.synced py (App.after (App.handle py e app)).
Proof.
  intros (Ht & Hb & Hs).
  destruct e as [s|income|s|s|s|s|s| |selected answer| |selected answer| ]; simpl.
  1,2,3,4,5,6,7:
    (unfold App.synced;
     split; [now apply (transactions_shown_ext app)|];
     split; [now apply (budgets_shown_ext app)|];
     now apply (summary_shown_ext app)).
  - destruct (add_transaction_handler app) as (app' & -> & [Herr|Hok]); simpl.
    + apply only_error_fields in Herr as (Hdb & _ & E1 & E2 & E3 & E4 & E5).
      unfold App.synced.
      split; [apply (transactions_shown_ext app); congruence|].
      split; [apply (budgets_shown_ext app); congruence|].
      apply (summary_shown_ext app); congruence.
    + destruct Hok as (i & a & _ & _ & _ & _ & _ & Hadd & _ & _ & _ & _ & _ & _
                       & Ht' & Hs' & Etree & _).
      split; [assumption|]. split; [|assumption].
      apply (budgets_shown_ext app); [|assumption..].
      apply add_transaction_Ok in Hadd as (j & _ & ->). reflexivity.
  - pose proof (delete_selected_transaction_cases selected answer app) as H.
    destruct selected as [item|].
    2:{ rewrite H. simpl. unfold App.synced.
        split; [now apply (transactions_shown_ext app)|].
        split; [now apply (budgets_shown_ext app)|].
        now apply (summary_shown_ext app). }
    destruct (App.tree_transactions app !! item) as [values|];
      [|rewrite H; now repeat split].
    destruct answer; [|rewrite H; now repeat split].
    destruct H as (app' & -> & Hdb & Ht' & Hs' & Etree & _). simpl.
    split; [assumption|]. split; [|assumption].
    apply (budgets_shown_ext app); [|assumption..]. now rewrite Hdb.
  - destruct (add_update_budget_handler app) as (app' & -> & [Herr|Hok]); simpl.
    + apply only_error_fields in Herr as (Hdb & _ & E1 & E2 & E3 & E4 & E5).
      unfold App.synced.
      split; [apply (transactions_shown_ext app); congruence|].
      split; [apply (budgets_shown_ext app); congruence|].
      apply (summary_shown_ext app); congruence.
    + destruct Hok as (i & a & _ & _ & _ & Hadd & _ & _ & _ & Hb' & E1 & E2 & E3 & E4 & _).
      apply add_budget_Ok in Hadd as (j & _ & Hdb).
      split; [|split; [assumption|]].
      * apply (transactions_shown_ext app); [now rewrite Hdb | assumption..].
      * apply (summary_shown_ext app); [now rewrite Hdb | assumption..].
  - pose proof (delete_selected_budget_cases selected answer app) as H.
    destruct selected as [item|].
    2:{ rewrite H. simpl. unfold App.synced.
        split; [now apply (transactions_shown_ext app)|].
        split; [now apply (budgets_shown_ext app)|].
        now apply (summary_shown_ext app). }
    destruct (App.tree_budgets app !! item) as [values|];
      [|rewrite H; now repeat split].
    destruct answer; [|rewrite H; now repeat split].
    destruct H as (app' & -> & Hdb & Hb' & E1 & E2 & E3 & E4 & _). simpl.
    split; [|split; [assumption|]].
    + apply (transactions_shown_ext app); [now rewrite Hdb | assumption..].
    + apply (summary_shown_ext app); [now rewrite Hdb | assumption..].
  - unfold App.synced.
    split; [now apply (transactions_shown_ext app)|].
    split; [now apply (budgets_shown_ext app)|].
    eexists. split; [reflexivity|]. simpl. now repeat split.
Qed.

(** X14.  After the application has started and after every handler, the
    list of transactions shows what [get_transactions] returns, the list of
    budgets what [get_budgets] returns and the summary what [get_summary]
    returns, for the store as it then is. *)
Theorem views_synced (today : string) (file : Database) (es : list App.event) :
  App.synced py (App.run_events py es (App.after (App.init py today file))).
Proof.
  destruct (init_run today file) as (app & -> & _ & _ & _ & _ & Hsync). simpl.
  revert app Hsync. induction es as [|e es IH]; intros app Hsync; [assumption|].
  simpl. apply IH. now apply handle_synced.
Qed.

(** ** Deleting the selected row *)

(** X15.  When the list shows the store's transactions and the store meets
    the schema, Delete Selected, once confirmed, on the item at a position
    of the list removes from the store the transaction that the item shows
    and no other, and refreshes the list and the summary. *)
Theorem delete_selected_removes_it app (item : nat) (values : App.trans_values) :
  App.transactions_shown py app → wf (App.db app) →
  App.tree_transactions app !! item = Some values →
  ∃ r l1 l2 app',
    values = App.transaction_values py r ∧
    transactions (App.db app) = l1 ++ r :: l2 ∧
    App.delete_selected_transaction py (Some item) true app = App.Returned tt app' ∧
    transactions (App.db app') = l1 ++ l2 ∧
    budgets (App.db app') = budgets (App.db app) ∧
    App.transactions_shown py app' ∧
    App.summary_shown py app'.
Proof.
  intros (rows & Hrows & Htree) [Hnd _ _] Hitem.
  injection Hrows as <-.
  pose proof (delete_selected_transaction_cases (Some item) true app) as H.
  lazy beta iota in H.
  match type of H with
  | match ?t with _ => _ end => destruct t as [v|] eqn:E
  end.
  2:{ exfalso. pose proof (eq_trans (eq_sym E) Hitem) as Hv.
      discriminate Hv. }
  pose proof (eq_trans (eq_sym E) Hitem) as Hv.
  injection Hv as ->. clear E.
  destruct H as (app' & Hrun & Hdb & Ht' & Hs' & _).
  rewrite Htree, list_lookup_fmap in Hitem.
  destruct (merge_sort trans_before (transactions (App.db app)) !! item)
    as [r|] eqn:Hr; [|discriminate].
  injection Hitem as <-.
  apply list_elem_of_lookup_2 in Hr. rewrite merge_sort_Permutation in Hr.
  apply list_elem_of_split in Hr as (l1 & l2 & Hl).
  exists r, l1, l2, app'.
  split; [reflexivity|]. split; [exact Hl|]. split; [exact Hrun|].
  rewrite Hdb. unfold exec. rewrite delete_transaction_run. simpl.
  rewrite Hl in Hnd |- *. rewrite (filter_key_unique t_id) by assumption.
  now repeat split.
Qed.

End app_facts.

Lemma entered_through_forms_witness :
  App.entered App.sample_python
    (App.db (App.run_events App.sample_python
               [App.KeyCategory " Food "; App.KeyAmount "12"; App.PressAddTransaction;
                App.KeyBudgetCategory "Food"; App.KeyBudgetAmount "100";
                App.PressAddBudget; App.PressDeleteTransaction (Some 0%nat) true]
               (App.after (App.init App.sample_python "2024-03-09" empty_db)))) ∧
  wf (App.db (App.run_events App.sample_python
               [App.KeyCategory " Food "; App.KeyAmount "12"; App.PressAddTransaction;
                App.KeyBudgetCategory "Food"; App.KeyBudgetAmount "100";
                App.PressAddBudget; App.PressDeleteTransaction (Some 0%nat) true]
               (App.after (App.init App.sample_python "2024-03-09" empty_db)))).
Proof.
  apply entered_through_forms; [split; constructor | apply empty_db_wf].
Defined.

Lemma delete_selected_removes_it_witness :
  ∃ r l1 l2 app',
    (1, "2024-03-01", "Income", "Salary", "", "2000.00")
      = App.transaction_values App.sample_python r ∧
    transactions sample_db = l1 ++ r :: l2 ∧
    App.delete_selected_transaction App.sample_python (Some 1%nat) true
      (App.after (App.init App.sample_python "2024-03-09" sample_db))
      = App.Returned tt app' ∧
    transactions (App.db app') = l1 ++ l2 ∧
    budgets (App.db app') = budgets sample_db ∧
    App.transactions_shown App.sample_python app' ∧
    App.summary_shown App.sample_python app'.
Proof.
  apply (delete_selected_removes_it App.sample_python
           (App.after (App.init App.sample_python "2024-03-09" sample_db)) 1%nat);
    [now eexists | apply sample_db_wf | reflexivity].
Defined.

(** The forms at work: a category typed with blanks around it is stored
    without them, and an amount that is not a positive number is turned
    away with a message. *)
Example forms_at_work :
  let app :=
    App.run_events App.sample_python
      [App.KeyCategory " Food "; App.KeyAmount "12"; App.PressAddTransaction;
       App.KeyCategory "Rent"; App.KeyAmount "0"; App.PressAddTransaction;
       App.KeyDate ""; App.KeyAmount "5"; App.PressAddTransaction]
      (App.after (App.init App.sample_python "2024-03-09" empty_db)) in
  transactions (App.db app)
    = [mkTransaction 1 "2024-03-09" "Expense" "Food" "" 12] ∧
  App.tree_transactions app
    = [(1, "2024-03-09", "Expense", "Food", "", "12.00")] ∧
  App.var_net_balance app = "-12.00" ∧
  App.shown app
    = [App.showinfo "Success" "Transaction added successfully.";
       App.showerror "Input Error" "Amount must be a positive number.";
       App.showerror "Input Error" "Date is required."].
Proof. vm_compute. repeat split. Qed.

